(** * The request/response bridge of the AD MCP Bridge Server

    A shallow embedding of [odoo_client.py], [config.py] and the tools,
    resources and formatters of [server.py], followed by the properties of
    the bridging layer: authentication injection, reply interpretation,
    payload projection, limit clamping, error reporting and record
    rendering. *)

From Stdlib Require Import String Ascii List ZArith Bool Lia.
From Stdlib Require Import DecimalString Decimal DecimalPos.
Import ListNotations.

Local Open Scope string_scope.
Local Open Scope Z_scope.

(** ** Python values

    The values that travel through the bridge are the ones the JSON decoder
    produces, plus the arguments of the tools.  A [dict] keeps its insertion
    order (the formatters iterate over [items()]), hence an association
    list; its keys are always strings here.

    A float enters only through the decoder and is only ever truth-tested,
    type-tested and printed, so it is carried as these two observations. *)

Record pyfloat : Type := MkFloat {
  float_nonzero : bool;
  float_text : string
}.

#[warning="-register-all"]
Inductive pyval : Type :=
| PNone
| PBool (b : bool)
| PInt (n : Z)
| PFloat (f : pyfloat)
| PStr (s : string)
| PList (items : list pyval)
| PDict (entries : list (string * pyval)).

Definition dict : Type := list (string * pyval).

(** ** Exceptions

    [OdooError] is the exception class of the repository; the others are the
    built-in ones the code can run into.  Only [str(e)] is ever observed, so
    an exception carries its message ([KeyError] carries the printed key). *)

Inductive exn : Type :=
| OdooError (msg : string)
| AttributeError (msg : string)
| TypeError (msg : string)
| KeyError (key : string)
| IndexError (msg : string)
| ValueError (msg : string).

Inductive res (A : Type) : Type :=
| Ret (a : A)
| Raise (e : exn).

Arguments Ret {A} a.
Arguments Raise {A} e.

Definition res_bind {A B : Type} (m : res A) (k : A -> res B) : res B :=
  match m with
  | Ret a => k a
  | Raise e => Raise e
  end.

Declare Scope res_scope.
Delimit Scope res_scope with res.
Notation "x <- m ;; k" := (res_bind m (fun x => k))
  (at level 61, m at next level, right associativity) : res_scope.

(** ** Strings *)

Module PyString.

Definition nl : string := String (ascii_of_nat 10) "".

Fixpoint join (sep : string) (parts : list string) : string :=
  match parts with
  | [] => ""
  | [p] => p
  | p :: rest => p ++ sep ++ join sep rest
  end.

Definition of_Z (n : Z) : string :=
  NilZero.string_of_int (Z.to_int n).

Definition of_nat (n : nat) : string := of_Z (Z.of_nat n).

Fixpoint contains_char (c : ascii) (s : string) : bool :=
  match s with
  | EmptyString => false
  | String a rest => Ascii.eqb a c || contains_char c rest
  end.

Fixpoint contains (needle hay : string) : bool :=
  String.prefix needle hay ||
  match hay with
  | EmptyString => false
  | String _ rest => contains needle rest
  end.

Definition hex_digit (n : N) : ascii :=
  if N.ltb n 10 then ascii_of_N (48 + n) else ascii_of_N (87 + n).

(** One character of [repr(str)]; [q] is the quote that was chosen.
    Characters outside ASCII are kept as they are, which is what Python
    does for the printable ones. *)
Definition repr_char (q : ascii) (c : ascii) : string :=
  let n := N_of_ascii c in
  if Ascii.eqb c q || Ascii.eqb c "\"%char then String "\"%char (String c "")
  else if N.eqb n 9 then "\t"
  else if N.eqb n 10 then "\n"
  else if N.eqb n 13 then "\r"
  else if N.ltb n 32 || N.eqb n 127 then
    String "\"%char (String "x"%char
      (String (hex_digit (N.div n 16)) (String (hex_digit (N.modulo n 16)) "")))
  else String c "".

Fixpoint repr_body (q : ascii) (s : string) : string :=
  match s with
  | EmptyString => ""
  | String c rest => repr_char q c ++ repr_body q rest
  end.

Definition double_quote : ascii := ascii_of_nat 34.

Definition repr (s : string) : string :=
  let q := if contains_char "'"%char s && negb (contains_char double_quote s)
           then double_quote else "'"%char in
  String q (repr_body q s ++ String q "").

(** [s.rstrip('/')] *)
Fixpoint rstrip_slash (s : string) : string :=
  match s with
  | EmptyString => ""
  | String c rest =>
      match rstrip_slash rest with
      | EmptyString => if Ascii.eqb c "/"%char then "" else String c ""
      | r => String c r
      end
  end.

Fixpoint chars (s : string) : list string :=
  match s with
  | EmptyString => []
  | String c rest => String c "" :: chars rest
  end.

End PyString.

(** ** Built-in operations on values *)

Module Py.

(** [str(v)] and [repr(v)]; they differ on strings only, and a container
    prints its elements with [repr]. *)
Fixpoint repr (v : pyval) : string :=
  match v with
  | PNone => "None"
  | PBool true => "True"
  | PBool false => "False"
  | PInt n => PyString.of_Z n
  | PFloat f => float_text f
  | PStr s => PyString.repr s
  | PList items => "[" ++ PyString.join ", " (map repr items) ++ "]"
  | PDict entries =>
      "{" ++ PyString.join ", "
               (map (fun kv => PyString.repr (fst kv) ++ ": " ++ repr (snd kv))
                    entries) ++ "}"
  end.

Definition str (v : pyval) : string :=
  match v with
  | PStr s => s
  | _ => repr v
  end.

(** [bool(v)] *)
Definition truthy (v : pyval) : bool :=
  match v with
  | PNone => false
  | PBool b => b
  | PInt n => negb (Z.eqb n 0)
  | PFloat f => float_nonzero f
  | PStr s => negb (String.eqb s "")
  | PList items => match items with [] => false | _ => true end
  | PDict entries => match entries with [] => false | _ => true end
  end.

(** [a or b] *)
Definition or_ (a b : pyval) : pyval := if truthy a then a else b.

(** [type(v).__name__] *)
Definition type_name (v : pyval) : string :=
  match v with
  | PNone => "NoneType"
  | PBool _ => "bool"
  | PInt _ => "int"
  | PFloat _ => "float"
  | PStr _ => "str"
  | PList _ => "list"
  | PDict _ => "dict"
  end.

(** [isinstance(v, int)]: [bool] is a subclass of [int]. *)
Definition is_int (v : pyval) : bool :=
  match v with
  | PInt _ | PBool _ => true
  | _ => false
  end.

(** [isinstance(v, (str, int, float, bool))] *)
Definition is_scalar (v : pyval) : bool :=
  match v with
  | PStr _ | PInt _ | PFloat _ | PBool _ => true
  | _ => false
  end.

(** [v is None or v == '' or v is False] *)
Definition is_blank (v : pyval) : bool :=
  match v with
  | PNone => true
  | PStr s => String.eqb s ""
  | PBool b => negb b
  | _ => false
  end.

Definition no_attribute (v : pyval) (attr : string) : exn :=
  AttributeError ("'" ++ type_name v ++ "' object has no attribute '" ++ attr ++ "'").

(** An optional string of the configuration, as a value. *)
Definition of_opt_str (o : option string) : pyval :=
  match o with
  | Some s => PStr s
  | None => PNone
  end.

Definition of_opt_list (o : option (list pyval)) : pyval :=
  match o with
  | Some l => PList l
  | None => PNone
  end.

Definition of_opt_dict (o : option dict) : pyval :=
  match o with
  | Some d => PDict d
  | None => PNone
  end.

End Py.

(** ** Dictionaries *)

Module Dict.

Fixpoint lookup (k : string) (d : dict) : option pyval :=
  match d with
  | [] => None
  | (k', v) :: rest => if String.eqb k' k then Some v else lookup k rest
  end.

Definition mem (k : string) (d : dict) : bool :=
  match lookup k d with
  | Some _ => true
  | None => false
  end.

(** [d[k] = v]: an existing key keeps its place, a new one goes last. *)
Fixpoint set (k : string) (v : pyval) (d : dict) : dict :=
  match d with
  | [] => [(k, v)]
  | (k', v') :: rest =>
      if String.eqb k' k then (k, v) :: rest else (k', v') :: set k v rest
  end.

(** [d.get(k, default)] *)
Definition get (k : string) (default : pyval) (d : dict) : pyval :=
  match lookup k d with
  | Some v => v
  | None => default
  end.

(** [v.get(k, default)] on an arbitrary value. *)
Definition get_of (v : pyval) (k : string) (default : pyval) : res pyval :=
  match v with
  | PDict d => Ret (get k default d)
  | _ => Raise (Py.no_attribute v "get")
  end.

Definition keys (d : dict) : list string := map fst d.

End Dict.

(** ** config.py *)

Module Config.

Record Settings : Type := MkSettings {
  url : string;
  db : option string;
  api_key : option string;
  user : option string;
  password : option string;
  mcp_transport : string;
  mcp_host : string;
  mcp_port : Z;
  max_records : Z;
  timeout : Z
}.

(** The defaults of the [Field] declarations. *)
Definition defaults : Settings :=
  {| url := "http://localhost:8069"; db := None; api_key := None;
     user := None; password := None; mcp_transport := "stdio";
     mcp_host := "localhost"; mcp_port := 8000; max_records := 100;
     timeout := 30 |}.

Definition opt_truthy (o : option string) : bool := Py.truthy (Py.of_opt_str o).

Definition has_api_key (s : Settings) : bool := opt_truthy (api_key s).

Definition has_credentials (s : Settings) : bool :=
  opt_truthy (user s) && opt_truthy (password s).

Definition can_connect (s : Settings) : bool :=
  has_api_key s || has_credentials s.

End Config.

(** ** The HTTP exchange

    [httpx] is outside the repository.  One POST is a request that goes out
    and one of the four outcomes [_request] tells apart: the exchange fails
    ([httpx.RequestError]), [raise_for_status] raises
    ([httpx.HTTPStatusError]), the body is not JSON ([response.json()]
    raises), or the body decodes to a value. *)

Record request : Type := MkRequest {
  req_url : string;
  req_json : dict
}.

Inductive exchange : Type :=
| ConnFail (msg : string)
| BadStatus (status_code : Z) (text : string)
| BadBody (msg : string)
| Body (reply : pyval).

Definition backend : Type := request -> exchange.

(** A computation of the client: it reads the backend, appends to the log
    of the requests sent, and returns or raises. *)
Definition Net (A : Type) : Type := backend -> list request -> res A * list request.

Definition net_ret {A : Type} (a : A) : Net A := fun _ log => (Ret a, log).

Definition net_raise {A : Type} (e : exn) : Net A := fun _ log => (Raise e, log).

Definition net_bind {A B : Type} (m : Net A) (k : A -> Net B) : Net B :=
  fun be log =>
    match m be log with
    | (Ret a, log') => k a be log'
    | (Raise e, log') => (Raise e, log')
    end.

Definition net_lift {A : Type} (r : res A) : Net A := fun _ log => (r, log).

(** [try: m except OdooError as e: h(str(e))] *)
Definition except_OdooError {A : Type} (m : Net A) (h : string -> A) : Net A :=
  fun be log =>
    match m be log with
    | (Raise (OdooError msg), log') => (Ret (h msg), log')
    | other => other
    end.

Definition exn_str (e : exn) : string :=
  match e with
  | OdooError m | AttributeError m | TypeError m | IndexError m | ValueError m => m
  | KeyError k => k
  end.

(** [try: m except Exception as e: h(str(e))] *)
Definition except_Exception {A : Type} (m : Net A) (h : string -> A) : Net A :=
  fun be log =>
    match m be log with
    | (Raise e, log') => (Ret (h (exn_str e)), log')
    | other => other
    end.

Definition post (r : request) : Net exchange :=
  fun be log => (Ret (be r), (log ++ [r])%list).

Declare Scope net_scope.
Delimit Scope net_scope with net.
Notation "x <- m ;; k" := (net_bind m (fun x => k))
  (at level 61, m at next level, right associativity) : net_scope.

(** ** odoo_client.py *)

Module OdooClient.

Record t : Type := MkClient {
  url : string;
  db : option string;
  api_key : option string;
  user : option string;
  password : option string;
  timeout : Z
}.

Definition opt_or (a b : option string) : option string :=
  if Config.opt_truthy a then a else b.

Definition __init__ (settings : Config.Settings)
    (url db api_key user password : option string) (timeout : Z) : t :=
  {| url := PyString.rstrip_slash
              (match opt_or url (Some (Config.url settings)) with
               | Some u => u
               | None => ""
               end);
     db := opt_or db (Config.db settings);
     api_key := opt_or api_key (Config.api_key settings);
     user := opt_or user (Config.user settings);
     password := opt_or password (Config.password settings);
     timeout := if Z.eqb timeout 0 then Config.timeout settings else timeout |}.

(** Lines 36-41 of [_request], "Add authentication". *)
Definition add_authentication (self : t) (params : dict) : dict :=
  if Config.opt_truthy (api_key self) then
    Dict.set "api_key" (Py.of_opt_str (api_key self)) params
  else if Config.opt_truthy (user self) && Config.opt_truthy (password self) then
    Dict.set "password" (Py.of_opt_str (password self))
      (Dict.set "user" (Py.of_opt_str (user self)) params)
  else params.

Definition envelope (params : dict) : dict :=
  [("jsonrpc", PStr "2.0"); ("method", PStr "call");
   ("params", PDict params); ("id", PInt 1)].

(** ["error" in result] *)
Definition has_error (result : pyval) : res bool :=
  match result with
  | PDict d => Ret (Dict.mem "error" d)
  | PList items =>
      Ret (existsb (fun v => match v with
                             | PStr s => String.eqb s "error"
                             | _ => false
                             end) items)
  | PStr s => Ret (PyString.contains "error" s)
  | _ => Raise (TypeError ("argument of type '" ++ Py.type_name result
                           ++ "' is not iterable"))
  end.

(** [result["error"]], evaluated only when ["error" in result] held. *)
Definition error_of (result : pyval) : res pyval :=
  match result with
  | PDict d => match Dict.lookup "error" d with
               | Some v => Ret v
               | None => Raise (KeyError (PyString.repr "error"))
               end
  | PList _ => Raise (TypeError "list indices must be integers or slices, not str")
  | PStr _ => Raise (TypeError "string indices must be integers, not 'str'")
  | _ => Raise (TypeError ("'" ++ Py.type_name result
                           ++ "' object is not subscriptable"))
  end.

(** Lines 59-67 of [_request]: what is made of the decoded body. *)
Definition read_reply (result : pyval) : res pyval :=
  (found <- has_error result ;;
   if found : bool then
     error <- error_of result ;;
     msg <- match error with
            | PDict e =>
                data <- Ret (Dict.get "data" (PDict []) e) ;;
                Dict.get_of data "message" (PStr (Py.str error))
            | _ => Ret (PStr (Py.str error))
            end ;;
     Raise (OdooError ("Odoo error: " ++ Py.str msg))
   else
     Dict.get_of result "result" (PDict []))%res.

(** The [try] block of [_request] once the exchange is over: the two
    [except] clauses turn the failures of [httpx] into [OdooError]; a body
    that is not JSON is not caught. *)
Definition settle (outcome : exchange) : res pyval :=
  match outcome with
  | Body result => read_reply result
  | BadStatus code text =>
      Raise (OdooError ("HTTP error " ++ PyString.of_Z code ++ ": " ++ text))
  | ConnFail msg => Raise (OdooError ("Connection error: " ++ msg))
  | BadBody msg => Raise (ValueError msg)
  end.

Definition _request (self : t) (endpoint : string) (params : dict) : Net pyval :=
  let url := url self ++ "/mcp/" ++ endpoint in
  let params := add_authentication self params in
  let payload := envelope params in
  (outcome <- post (MkRequest url payload) ;;
   net_lift (settle outcome))%net.

(** [if result.get("error"): raise OdooError(result.get("message",
    "Unknown error"))], the two lines every operation but [get_server_info]
    runs on what [_request] returned. *)
Definition raise_if_error (result : pyval) : res unit :=
  (flag <- Dict.get_of result "error" PNone ;;
   if Py.truthy flag then
     msg <- Dict.get_of result "message" (PStr "Unknown error") ;;
     Raise (OdooError (Py.str msg))
   else Ret tt)%res.

(** [result.get("data", {}).get(key, default)] *)
Definition data_get (result : pyval) (key : string) (default : pyval) : res pyval :=
  (data <- Dict.get_of result "data" (PDict []) ;;
   Dict.get_of data key default)%res.

(** The body shared by the operations that return a part of [data]. *)
Definition checked (result : pyval) (key : string) (default : pyval) : Net pyval :=
  net_lift (_ <- raise_if_error result ;; data_get result key default)%res.

Definition get_server_info (self : t) : Net pyval :=
  _request self "info" [].

Definition list_models (self : t) : Net pyval :=
  (result <- _request self "models" [] ;;
   checked result "models" (PList []))%net.

Definition get_fields (self : t) (model : string) : Net pyval :=
  (result <- _request self "fields" [("model", PStr model)] ;;
   checked result "fields" (PList []))%net.

Definition search (self : t) (model : string) (domain fields : option (list pyval))
    (limit offset : Z) (order : option string) : Net pyval :=
  (result <- _request self "search"
               [("model", PStr model);
                ("domain", Py.or_ (Py.of_opt_list domain) (PList []));
                ("fields", Py.of_opt_list fields);
                ("limit", PInt limit);
                ("offset", PInt offset);
                ("order", Py.of_opt_str order)] ;;
   checked result "records" (PList []))%net.

Definition read (self : t) (model : string) (record_id : Z)
    (fields : option (list pyval)) : Net pyval :=
  (result <- _request self "read"
               [("model", PStr model);
                ("record_id", PInt record_id);
                ("fields", Py.of_opt_list fields)] ;;
   checked result "record" (PDict []))%net.

Definition count (self : t) (model : string) (domain : option (list pyval)) : Net pyval :=
  (result <- _request self "count"
               [("model", PStr model);
                ("domain", Py.or_ (Py.of_opt_list domain) (PList []))] ;;
   checked result "count" (PInt 0))%net.

Definition create (self : t) (model : string) (values : dict) : Net pyval :=
  (result <- _request self "create"
               [("model", PStr model); ("values", PDict values)] ;;
   checked result "id" PNone)%net.

Definition write (self : t) (model : string) (record_id : Z) (values : dict) : Net bool :=
  (result <- _request self "write"
               [("model", PStr model);
                ("record_id", PInt record_id);
                ("values", PDict values)] ;;
   net_lift (_ <- raise_if_error result ;; Ret true)%res)%net.

Definition unlink (self : t) (model : string) (record_id : Z) : Net bool :=
  (result <- _request self "unlink"
               [("model", PStr model); ("record_id", PInt record_id)] ;;
   net_lift (_ <- raise_if_error result ;; Ret true)%res)%net.

Definition execute (self : t) (model method : string)
    (record_ids args : option (list pyval)) (kwargs : option dict) : Net pyval :=
  (result <- _request self "execute"
               [("model", PStr model);
                ("method", PStr method);
                ("record_ids", Py.of_opt_list record_ids);
                ("args", Py.of_opt_list args);
                ("kwargs_data", Py.of_opt_dict kwargs)] ;;
   checked result "result" PNone)%net.

(** [get_client()]: the process-wide client is built from the settings
    alone, once; building it again gives the same client. *)
Definition get_client (settings : Config.Settings) : t :=
  __init__ settings None None None None None 30.

End OdooClient.

(** ** server.py: the formatters *)

Module Format.

Definition key_in (key : string) (keys : list string) : bool :=
  existsb (String.eqb key) keys.

(** [isinstance(value, list) and len(value) == 2 and isinstance(value[0], int)];
    on success the two elements. *)
Definition many2one (value : pyval) : option (pyval * pyval) :=
  match value with
  | PList [first; second] => if Py.is_int first then Some (first, second) else None
  | _ => None
  end.

(** [f"{value[1]} (ID: {value[0]})"] *)
Definition relation_text (first second : pyval) : string :=
  Py.str second ++ " (ID: " ++ Py.str first ++ ")".

(** [f"- **{key}**: {value}"] *)
Definition bullet (key value : string) : string :=
  "- **" ++ key ++ "**: " ++ value.

(** [rec.get('display_name') or rec.get('name') or f"ID {rec_id}"] *)
Definition heading_name (rec : dict) (rec_id : pyval) : pyval :=
  Py.or_ (Py.or_ (Dict.get "display_name" PNone rec) (Dict.get "name" PNone rec))
         (PStr ("ID " ++ Py.str rec_id)).

(** *** [format_record] *)

Record groups : Type := MkGroups {
  basic_fields : list (string * pyval);
  relation_fields : list (string * string);
  other_fields : list (string * string)
}.

(** [f"{len(value)} items: {value[:5]}{'...' if len(value) > 5 else ''}"] *)
Definition collection_text (items : list pyval) : string :=
  PyString.of_nat (length items) ++ " items: " ++ Py.str (PList (firstn 5 items))
  ++ (if Nat.ltb 5 (length items) then "..." else "").

(** One turn of the loop over [record.items()]. *)
Definition place (g : groups) (item : string * pyval) : groups :=
  let (key, value) := item in
  if key_in key ["id"; "display_name"; "__last_update"] then g
  else if Py.is_blank value then g
  else
    match many2one value with
    | Some (first, second) =>
        MkGroups (basic_fields g)
                 (List.app (relation_fields g) [(key, relation_text first second)])
                 (other_fields g)
    | None =>
        match value with
        | PList items =>
            if Py.truthy value then
              MkGroups (basic_fields g) (relation_fields g)
                       (List.app (other_fields g) [(key, collection_text items)])
            else g
        | _ =>
            if Py.is_scalar value then
              MkGroups (List.app (basic_fields g) [(key, value)]) (relation_fields g)
                       (other_fields g)
            else
              MkGroups (basic_fields g) (relation_fields g)
                       (List.app (other_fields g) [(key, Py.str value)])
        end
    end.

Definition section (title : string) (body : list string) : list string :=
  match body with
  | [] => []
  | _ => title :: body
  end.

Definition record_lines (model : string) (record : dict) : list string :=
  let rec_id := Dict.get "id" (PStr "?") record in
  let name := heading_name record rec_id in
  let g := fold_left place record (MkGroups [] [] []) in
  let header :=
    "# " ++ model ++ ": " ++ Py.str name ++ " (ID: " ++ Py.str rec_id ++ ")"
    ++ PyString.nl in
  List.app [header]
    (List.app
       (section "## Basic Information"
          (map (fun kv => bullet (fst kv) (Py.str (snd kv))) (basic_fields g)))
       (List.app
          (section (PyString.nl ++ "## Related Records")
             (map (fun kv => bullet (fst kv) (snd kv)) (relation_fields g)))
          (section (PyString.nl ++ "## Other Data")
             (map (fun kv => bullet (fst kv) (snd kv)) (other_fields g))))).

Definition format_record (model : string) (record : pyval) : res string :=
  match record with
  | PDict d => Ret (PyString.join PyString.nl (record_lines model d))
  | _ => Raise (Py.no_attribute record "get")
  end.

(** *** [format_records] *)

(** One turn of the inner loop: the line a field contributes, if any. *)
Definition field_line (item : string * pyval) : option string :=
  let (key, value) := item in
  if key_in key ["id"; "display_name"; "name"; "__last_update"] then None
  else if Py.is_blank value then None
  else
    match many2one value with
    | Some (first, second) => Some (bullet key (relation_text first second))
    | None =>
        match value with
        | PList items => Some (bullet key (PyString.join ", " (map Py.str items)))
        | _ => Some (bullet key (Py.str value))
        end
    end.

Fixpoint field_lines (items : dict) : list string :=
  match items with
  | [] => []
  | item :: rest =>
      match field_line item with
      | Some line => line :: field_lines rest
      | None => field_lines rest
      end
  end.

(** One turn of the outer loop. *)
Definition one_record (rec : pyval) : res (list string) :=
  match rec with
  | PDict d =>
      let rec_id := Dict.get "id" (PStr "?") d in
      let name := heading_name d rec_id in
      Ret (("## " ++ Py.str name ++ " (ID: " ++ Py.str rec_id ++ ")")
           :: List.app (field_lines d) [""])
  | _ => Raise (Py.no_attribute rec "get")
  end.

Fixpoint all_records (recs : list pyval) : res (list string) :=
  match recs with
  | [] => Ret []
  | rec :: rest =>
      (here <- one_record rec ;;
       after <- all_records rest ;;
       Ret (List.app here after))%res
  end.

(** What [len(v)] and [for x in v] give on an arbitrary value; the length
    of a string is counted in bytes. *)
Definition sized (v : pyval) : res (list pyval) :=
  match v with
  | PList items => Ret items
  | PStr s => Ret (map PStr (PyString.chars s))
  | PDict d => Ret (map PStr (Dict.keys d))
  | _ => Raise (TypeError ("object of type '" ++ Py.type_name v ++ "' has no len()"))
  end.

Definition format_records (model : string) (records : pyval) : res string :=
  if negb (Py.truthy records) then Ret ("No records found in " ++ model ++ ".")
  else
    (recs <- sized records ;;
     body <- all_records recs ;;
     Ret (PyString.join PyString.nl
            (("# Found " ++ PyString.of_nat (length recs) ++ " records in "
              ++ model ++ PyString.nl) :: body)))%res.

End Format.

(** ** server.py: resources and tools *)

Module Server.

(** [int(s)] for a resource's [record_id], over ASCII: blanks around, one
    optional sign, decimal digits with single underscores between them. *)
Module IntLiteral.

Definition is_space (c : ascii) : bool :=
  let n := N_of_ascii c in
  (N.leb 9 n && N.leb n 13) || (N.leb 28 n && N.leb n 32).

Definition digit (c : ascii) : option Z :=
  let n := N_of_ascii c in
  if N.leb 48 n && N.leb n 57 then Some (Z.of_N n - 48) else None.

Fixpoint lstrip (s : string) : string :=
  match s with
  | String c rest => if is_space c then lstrip rest else s
  | EmptyString => ""
  end.

Fixpoint rstrip (s : string) : string :=
  match s with
  | EmptyString => ""
  | String c rest =>
      match rstrip rest with
      | EmptyString => if is_space c then "" else String c ""
      | r => String c r
      end
  end.

(** [acc] is the value of the digits read so far, the last character read
    being a digit when [after_digit] holds. *)
Fixpoint digits (s : string) (acc : Z) (after_digit : bool) : option Z :=
  match s with
  | EmptyString => if after_digit then Some acc else None
  | String c rest =>
      match digit c with
      | Some d => digits rest (10 * acc + d) true
      | None =>
          if Ascii.eqb c "_"%char && after_digit then
            match rest with
            | String c' _ => match digit c' with
                             | Some _ => digits rest acc false
                             | None => None
                             end
            | EmptyString => None
            end
          else None
      end
  end.

Definition parse (s : string) : res Z :=
  let bad := Raise (ValueError ("invalid literal for int() with base 10: "
                               ++ PyString.repr s)) in
  let body := rstrip (lstrip s) in
  let signed :=
    match body with
    | String "-" rest => option_map Z.opp (digits rest 0 false)
    | String "+" rest => digits rest 0 false
    | _ => digits body 0 false
    end in
  match signed with
  | Some n => Ret n
  | None => bad
  end.

End IntLiteral.

Section Tools.

(** The settings of the process. *)
Variable settings : Config.Settings.

(** [json.dumps], with the keyword arguments of each call site. *)
Variable json_dumps_indent2 : pyval -> string.
Variable json_dumps : pyval -> string.

Let client : OdooClient.t := OdooClient.get_client settings.

(** [try: m except OdooError as e: h1(str(e)) except Exception as e: h2(str(e))] *)
Definition except_OdooError_Exception {A : Type}
    (m : Net A) (h1 h2 : string -> A) : Net A :=
  fun be log =>
    match m be log with
    | (Raise (OdooError msg), log') => (Ret (h1 msg), log')
    | (Raise e, log') => (Ret (h2 (exn_str e)), log')
    | other => other
    end.

(** *** Resources *)

Definition resource_models : Net string :=
  (models <- OdooClient.list_models client ;;
   net_ret (json_dumps_indent2 models))%net.

Definition resource_model_fields (model_name : string) : Net string :=
  (fields <- OdooClient.get_fields client model_name ;;
   net_ret (json_dumps_indent2 fields))%net.

Definition resource_record (model_name record_id : string) : Net string :=
  (id <- net_lift (IntLiteral.parse record_id) ;;
   record <- OdooClient.read client model_name id None ;;
   net_lift (Format.format_record model_name record))%net.

Definition resource_count (model_name : string) : Net string :=
  (count <- OdooClient.count client model_name (Some []) ;;
   net_ret (json_dumps (PDict [("model", PStr model_name); ("count", count)])))%net.

(** *** Tools: search and read *)

Definition search_records (model : string) (domain fields : option (list pyval))
    (limit offset : Z) (order : option string) : Net string :=
  except_OdooError_Exception
    (records <- OdooClient.search client model domain fields
                  (Z.min limit (Config.max_records settings)) offset order ;;
     if negb (Py.truthy records) then
       net_ret ("No records found in " ++ model ++ " matching the criteria.")
     else net_lift (Format.format_records model records))%net
    (fun e => "Error searching " ++ model ++ ": " ++ e)
    (fun e => "Unexpected error: " ++ e).

Definition get_record (model : string) (record_id : Z)
    (fields : option (list pyval)) : Net string :=
  except_OdooError
    (record <- OdooClient.read client model record_id fields ;;
     if negb (Py.truthy record) then
       net_ret ("Record " ++ PyString.of_Z record_id ++ " not found in " ++ model ++ ".")
     else net_lift (Format.format_record model record))%net
    (fun e => "Error reading " ++ model ++ " record " ++ PyString.of_Z record_id
              ++ ": " ++ e).

Definition count_records (model : string) (domain : option (list pyval)) : Net string :=
  except_OdooError
    (count <- OdooClient.count client model domain ;;
     let domain_str :=
       if Py.truthy (Py.of_opt_list domain)
       then " matching " ++ Py.str (Py.of_opt_list domain) else "" in
     net_ret ("Found " ++ Py.str count ++ " records in " ++ model ++ domain_str ++ "."))%net
    (fun e => "Error counting " ++ model ++ ": " ++ e).

(** *** Tools: model information *)

(** [for x in v] on an arbitrary value. *)
Definition iterate (v : pyval) : res (list pyval) :=
  match v with
  | PList items => Ret items
  | PStr s => Ret (map PStr (PyString.chars s))
  | PDict d => Ret (map PStr (Dict.keys d))
  | _ => Raise (TypeError ("'" ++ Py.type_name v ++ "' object is not iterable"))
  end.

(** One turn of the loop of [list_models]. *)
Definition model_line (m : pyval) : res string :=
  match m with
  | PDict d =>
      let perm (flag name : string) : list string :=
        if Py.truthy (Dict.get flag PNone d) then [name] else [] in
      let perms :=
        List.app (perm "can_read" "read")
          (List.app (perm "can_create" "create")
             (List.app (perm "can_write" "update") (perm "can_delete" "delete"))) in
      let perm_str :=
        match perms with
        | [] => "no permissions"
        | _ => PyString.join ", " perms
        end in
      match Dict.lookup "model" d with
      | Some name =>
          Ret ("- **" ++ Py.str name ++ "** ("
               ++ Py.str (Dict.get "name" (PStr "Unknown") d) ++ "): " ++ perm_str)
      | None => Raise (KeyError (PyString.repr "model"))
      end
  | _ => Raise (Py.no_attribute m "get")
  end.

Fixpoint model_lines (ms : list pyval) : res (list string) :=
  match ms with
  | [] => Ret []
  | m :: rest =>
      (line <- model_line m ;;
       lines <- model_lines rest ;;
       Ret (line :: lines))%res
  end.

Definition list_models : Net string :=
  except_OdooError
    (models <- OdooClient.list_models client ;;
     if negb (Py.truthy models) then
       net_ret "No models are currently enabled for MCP access."
     else
       net_lift (ms <- iterate models ;;
                 lines <- model_lines ms ;;
                 Ret (PyString.join PyString.nl
                        (("# Available Models" ++ PyString.nl) :: lines)))%res)%net
    (fun e => "Error listing models: " ++ e).

(** [get_model_fields] leans on three built-ins that are taken as they
    are: [==] on values, [sorted] (here on pairs of a sort key and what it
    belongs to, which raises when two keys cannot be ordered) and
    [str.title]. *)
Variable py_eq : pyval -> pyval -> bool.
Variable py_sorted : forall A : Type, list (pyval * A) -> res (list (pyval * A)).
Variable str_title : string -> string.

(** [[f for f in fields if f.get('type') in field_types]] *)
Fixpoint keep_types (field_types fs : list pyval) : res (list pyval) :=
  match fs with
  | [] => Ret []
  | f :: rest =>
      (ty <- Dict.get_of f "type" PNone ;;
       kept <- keep_types field_types rest ;;
       Ret (if existsb (py_eq ty) field_types then f :: kept else kept))%res
  end.

(** A value that can be the key of a [dict]. *)
Definition hashable (v : pyval) : bool :=
  match v with
  | PList _ | PDict _ => false
  | _ => true
  end.

(** [if ftype not in by_type: by_type[ftype] = []] and
    [by_type[ftype].append(f)]; the groups keep the order in which their
    types were first met. *)
Fixpoint group_add (ftype f : pyval) (by_type : list (pyval * list pyval))
    : list (pyval * list pyval) :=
  match by_type with
  | [] => [(ftype, [f])]
  | (k, fs) :: rest =>
      if py_eq k ftype then (k, List.app fs [f]) :: rest
      else (k, fs) :: group_add ftype f rest
  end.

Fixpoint group_by_type (fs : list pyval) (by_type : list (pyval * list pyval))
    : res (list (pyval * list pyval)) :=
  match fs with
  | [] => Ret by_type
  | f :: rest =>
      (ftype <- Dict.get_of f "type" (PStr "unknown") ;;
       if hashable ftype then group_by_type rest (group_add ftype f by_type)
       else Raise (TypeError ("unhashable type: '" ++ Py.type_name ftype ++ "'")))%res
  end.

(** The sort key [x['name']] of each field of a group. *)
Fixpoint name_keys (flist : list pyval) : res (list (pyval * pyval)) :=
  match flist with
  | [] => Ret []
  | f :: rest =>
      (name <- match f with
               | PDict d => match Dict.lookup "name" d with
                            | Some name => Ret name
                            | None => Raise (KeyError (PyString.repr "name"))
                            end
               | _ => Raise (TypeError ("'" ++ Py.type_name f
                                        ++ "' object is not subscriptable"))
               end ;;
       keys <- name_keys rest ;;
       Ret ((name, f) :: keys))%res
  end.

(** One line of a group; the field has passed [name_keys]. *)
Definition field_entry (named : pyval * pyval) : res string :=
  let (name, f) := named in
  (required <- Dict.get_of f "required" PNone ;;
   readonly <- Dict.get_of f "readonly" PNone ;;
   label <- Dict.get_of f "label" (PStr "") ;;
   Ret ("- **" ++ Py.str name ++ "**: " ++ Py.str label
        ++ (if Py.truthy required then " (required)" else "")
        ++ (if Py.truthy readonly then " [readonly]" else "")))%res.

Fixpoint field_entries (named : list (pyval * pyval)) : res (list string) :=
  match named with
  | [] => Ret []
  | n :: rest =>
      (line <- field_entry n ;;
       lines <- field_entries rest ;;
       Ret (line :: lines))%res
  end.

(** One turn of the loop over the sorted groups. *)
Definition group_lines (group : pyval * list pyval) : res (list string) :=
  let (ftype, flist) := group in
  (title <- match ftype with
            | PStr s => Ret (str_title s)
            | _ => Raise (Py.no_attribute ftype "title")
            end ;;
   keys <- name_keys flist ;;
   sorted <- py_sorted pyval keys ;;
   entries <- field_entries sorted ;;
   Ret ((PyString.nl ++ "## " ++ title ++ " Fields") :: entries))%res.

Fixpoint all_groups (groups : list (pyval * list pyval)) : res (list string) :=
  match groups with
  | [] => Ret []
  | g :: rest =>
      (here <- group_lines g ;;
       after <- all_groups rest ;;
       Ret (List.app here after))%res
  end.

(** Lines 229-251: what [get_model_fields] makes of the fields it got. *)
Definition fields_text (model : string) (fields : pyval)
    (field_types : option (list pyval)) : res string :=
  (fields <- (if Py.truthy (Py.of_opt_list field_types) then
                fs <- iterate fields ;;
                kept <- keep_types (match field_types with
                                    | Some types => types
                                    | None => []
                                    end) fs ;;
                Ret (PList kept)
              else Ret fields) ;;
   if negb (Py.truthy fields) then Ret ("No fields found for " ++ model ++ ".")
   else
     fs <- iterate fields ;;
     by_type <- group_by_type fs [] ;;
     sorted <- py_sorted (list pyval) by_type ;;
     body <- all_groups sorted ;;
     Ret (PyString.join PyString.nl (("# Fields for " ++ model ++ PyString.nl) :: body)))%res.

Definition get_model_fields (model : string) (field_types : option (list pyval))
    : Net string :=
  except_OdooError
    (fields <- OdooClient.get_fields client model ;;
     net_lift (fields_text model fields field_types))%net
    (fun e => "Error getting fields for " ++ model ++ ": " ++ e).

(** *** Tools: create, update, delete *)

Definition create_record (model : string) (values : dict) : Net string :=
  except_OdooError
    (record_id <- OdooClient.create client model values ;;
     net_ret ("✅ Successfully created " ++ model ++ " record with ID "
              ++ Py.str record_id ++ "."))%net
    (fun e => "❌ Error creating " ++ model ++ ": " ++ e).

Definition update_record (model : string) (record_id : Z) (values : dict) : Net string :=
  except_OdooError
    (_ <- OdooClient.write client model record_id values ;;
     let fields_updated := PyString.join ", " (Dict.keys values) in
     net_ret ("✅ Successfully updated " ++ model ++ " record "
              ++ PyString.of_Z record_id ++ ". Fields: " ++ fields_updated))%net
    (fun e => "❌ Error updating " ++ model ++ " record " ++ PyString.of_Z record_id
              ++ ": " ++ e).

Definition delete_record (model : string) (record_id : Z) : Net string :=
  except_OdooError
    (_ <- OdooClient.unlink client model record_id ;;
     net_ret ("✅ Successfully deleted " ++ model ++ " record "
              ++ PyString.of_Z record_id ++ "."))%net
    (fun e => "❌ Error deleting " ++ model ++ " record " ++ PyString.of_Z record_id
              ++ ": " ++ e).

(** *** Tools: advanced operations *)

Definition execute_method (model method : string)
    (record_ids args : option (list pyval)) (kwargs : option dict) : Net string :=
  except_OdooError
    (result <- OdooClient.execute client model method record_ids args kwargs ;;
     match result with
     | PNone => net_ret ("✅ Method " ++ method ++ " executed successfully on "
                         ++ model ++ ".")
     | _ => net_ret ("✅ Method " ++ method ++ " result: " ++ json_dumps_indent2 result)
     end)%net
    (fun e => "❌ Error executing " ++ method ++ " on " ++ model ++ ": " ++ e).

(** The declared return type is [str], but what comes back is whatever the
    record holds under [display_name]. *)
Definition get_record_name (model : string) (record_id : Z) : Net pyval :=
  except_OdooError
    (record <- OdooClient.read client model record_id (Some [PStr "display_name"]) ;;
     net_lift (Dict.get_of record "display_name"
                 (PStr (model ++ "," ++ PyString.of_Z record_id))))%net
    (fun e => PStr ("Record not found: " ++ e)).

(** [records[0]] on an arbitrary truthy value. *)
Definition first_of (records : pyval) : res pyval :=
  match records with
  | PList (x :: _) => Ret x
  | PList [] => Raise (IndexError "list index out of range")
  | PStr (String c _) => Ret (PStr (String c ""))
  | PStr EmptyString => Raise (IndexError "string index out of range")
  | PDict _ => Raise (KeyError "0")
  | _ => Raise (TypeError ("'" ++ Py.type_name records
                           ++ "' object is not subscriptable"))
  end.

Definition search_and_read_one (model : string) (domain : list pyval)
    (fields : option (list pyval)) : Net string :=
  except_OdooError
    (records <- OdooClient.search client model (Some domain) fields 1 0 None ;;
     if negb (Py.truthy records) then
       net_ret ("No record found in " ++ model ++ " matching "
                ++ Py.str (PList domain) ++ ".")
     else
       net_lift (first <- first_of records ;;
                 Format.format_record model first)%res)%net
    (fun e => "Error: " ++ e).

End Tools.

End Server.

(** * Vocabulary of the properties *)

(** The request [_request] sends for an endpoint and the caller's
    parameters. *)
Definition request_of (self : OdooClient.t) (endpoint : string) (params : dict) : request :=
  MkRequest (OdooClient.url self ++ "/mcp/" ++ endpoint)
            (OdooClient.envelope (OdooClient.add_authentication self params)).

(** The payload [r] has no [data.key]: [data] is absent, or it is a mapping
    without [key]. *)
Definition lacks (r : dict) (key : string) : bool :=
  match Dict.lookup "data" r with
  | None => true
  | Some (PDict data) => negb (Dict.mem key data)
  | Some _ => false
  end.

(** The protocol-level error of the specification's example. *)
Definition boom_reply : pyval :=
  PDict [("error", PDict [("data", PDict [("message", PStr "boom")])])].

(** An optional setting that counts as unset: [None] or the empty string. *)
Definition unset (o : option string) : Prop := o = None \/ o = Some "".

(** A client whose profile holds an API key and credentials at once. *)
Definition keyed_client : OdooClient.t :=
  OdooClient.__init__ Config.defaults None None (Some "K") (Some "admin") (Some "pw") 30.

(** A client whose profile holds credentials only. *)
Definition login_client : OdooClient.t :=
  OdooClient.__init__ Config.defaults None None None (Some "admin") (Some "pw") 30.

(** The client of a process that was given no authentication at all. *)
Definition anonymous_client : OdooClient.t := OdooClient.get_client Config.defaults.

(** The record of the specification's formatting example. *)
Definition acme_record : dict :=
  [("id", PInt 5); ("name", PStr "Acme");
   ("partner_id", PList [PInt 3; PStr "Bob"]);
   ("tag_ids", PList [PInt 1; PInt 2; PInt 3; PInt 4; PInt 5; PInt 6])].

(** The keys the two formatters never render as a field. *)
Definition record_reserved : list string := ["id"; "display_name"; "__last_update"].
Definition records_reserved : list string :=
  ["id"; "display_name"; "name"; "__last_update"].

(** Every operation of the client raises [e], whatever its arguments. *)
Definition all_operations_raise (self : OdooClient.t) (be : backend)
    (log : list request) (e : exn) : Prop :=
  forall (model method : string) (domain fields ids args : option (list pyval))
         (limit offset id : Z) (order : option string) (values : dict)
         (kwargs : option dict),
    fst (OdooClient.get_server_info self be log) = Raise e
    /\ fst (OdooClient.list_models self be log) = Raise e
    /\ fst (OdooClient.get_fields self model be log) = Raise e
    /\ fst (OdooClient.search self model domain fields limit offset order be log)
       = Raise e
    /\ fst (OdooClient.read self model id fields be log) = Raise e
    /\ fst (OdooClient.count self model domain be log) = Raise e
    /\ fst (OdooClient.create self model values be log) = Raise e
    /\ fst (OdooClient.write self model id values be log) = Raise e
    /\ fst (OdooClient.unlink self model id be log) = Raise e
    /\ fst (OdooClient.execute self model method ids args kwargs be log) = Raise e.

(** [n] slashes. *)
Fixpoint slashes (n : nat) : string :=
  match n with
  | O => ""
  | S n' => String "/" (slashes n')
  end.

(** The last character of a string, if it has one. *)
Fixpoint last_char (s : string) : option ascii :=
  match s with
  | EmptyString => None
  | String c EmptyString => Some c
  | String _ rest => last_char rest
  end.

Definition is_dict (v : pyval) : bool :=
  match v with
  | PDict _ => true
  | _ => false
  end.

(** The fields that cannot change a rendering when they are taken away:
    the blank ones, but for the three keys the heading is made of. *)
Definition kept (item : string * pyval) : bool :=
  Format.key_in (fst item) ["id"; "display_name"; "name"]
  || negb (Py.is_blank (snd item)).

Definition drop_blank (d : dict) : dict := filter kept d.

(** The fields [format_record] gives a bullet to. *)
Definition shown_in_record (item : string * pyval) : bool :=
  negb (Format.key_in (fst item) record_reserved)
  && negb (Py.is_blank (snd item))
  && match snd item with
     | PList [] => false
     | _ => true
     end.

(** The fields [format_records] gives a bullet to. *)
Definition shown_in_records (item : string * pyval) : bool :=
  negb (Format.key_in (fst item) records_reserved) && negb (Py.is_blank (snd item)).

(** The three groups of [format_record], as conditions on a field, and what
    the second and third keep of it. *)
Definition is_many2one (v : pyval) : bool :=
  match Format.many2one v with
  | Some _ => true
  | None => false
  end.

Definition in_relation (item : string * pyval) : bool :=
  shown_in_record item && is_many2one (snd item).

Definition in_basic (item : string * pyval) : bool :=
  shown_in_record item && negb (is_many2one (snd item)) && Py.is_scalar (snd item).

Definition in_other (item : string * pyval) : bool :=
  shown_in_record item && negb (is_many2one (snd item))
  && negb (Py.is_scalar (snd item)).

Definition relation_entry (item : string * pyval) : string * string :=
  (fst item,
   match Format.many2one (snd item) with
   | Some (first, second) => Format.relation_text first second
   | None => ""
   end).

Definition other_entry (item : string * pyval) : string * string :=
  (fst item,
   match snd item with
   | PList items => Format.collection_text items
   | v => Py.str v
   end).

(** The line [format_records] writes for a field it shows. *)
Definition records_line (item : string * pyval) : string :=
  Format.bullet (fst item)
    (match Format.many2one (snd item) with
     | Some (first, second) => Format.relation_text first second
     | None =>
         match snd item with
         | PList items => PyString.join ", " (map Py.str items)
         | v => Py.str v
         end
     end).

(** The number a sequence of decimal digits stands for, after the digits
    that gave [acc]. *)
Fixpoint uint_value (d : Decimal.uint) (acc : Z) : Z :=
  match d with
  | Decimal.Nil => acc
  | Decimal.D0 l => uint_value l (10 * acc + 0)
  | Decimal.D1 l => uint_value l (10 * acc + 1)
  | Decimal.D2 l => uint_value l (10 * acc + 2)
  | Decimal.D3 l => uint_value l (10 * acc + 3)
  | Decimal.D4 l => uint_value l (10 * acc + 4)
  | Decimal.D5 l => uint_value l (10 * acc + 5)
  | Decimal.D6 l => uint_value l (10 * acc + 6)
  | Decimal.D7 l => uint_value l (10 * acc + 7)
  | Decimal.D8 l => uint_value l (10 * acc + 8)
  | Decimal.D9 l => uint_value l (10 * acc + 9)
  end.

(** An entry of the list of models that [list_models] can print. *)
Definition has_model (v : pyval) : bool :=
  match v with
  | PDict d => Dict.mem "model" d
  | _ => false
  end.

(** * Properties *)

(** ** Dictionaries *)

Lemma lookup_set_same (k : string) (v : pyval) (d : dict) :
  Dict.lookup k (Dict.set k v d) = Some v.
Proof.
  induction d as [| [k' v'] d IH]; simpl.
  - now rewrite String.eqb_refl.
  - destruct (String.eqb k' k) eqn:E; simpl.
    + now rewrite String.eqb_refl.
    + now rewrite E.
Qed.

Lemma lookup_set_other (k k' : string) (v : pyval) (d : dict) :
  k <> k' -> Dict.lookup k' (Dict.set k v d) = Dict.lookup k' d.
Proof.
  intros Hne.
  induction d as [| [k0 v0] d IH]; simpl.
  - destruct (String.eqb k k') eqn:E; [apply String.eqb_eq in E; contradiction | reflexivity].
  - destruct (String.eqb k0 k) eqn:E; simpl.
    + apply String.eqb_eq in E; subst k0.
      destruct (String.eqb k k') eqn:E'; [apply String.eqb_eq in E'; contradiction | reflexivity].
    + destruct (String.eqb k0 k'); [reflexivity | exact IH].
Qed.

Lemma get_lookup (k : string) (default : pyval) (d : dict) :
  Dict.get k default d = match Dict.lookup k d with Some v => v | None => default end.
Proof. reflexivity. Qed.

(** ** One request, one exchange *)

Lemma request_run (self : OdooClient.t) (endpoint : string) (params : dict)
    (be : backend) (log : list request) :
  OdooClient._request self endpoint params be log
  = (OdooClient.settle (be (request_of self endpoint params)),
     (log ++ [request_of self endpoint params])%list).
Proof. reflexivity. Qed.

(** An operation is [_request] followed by a pure continuation. *)
Lemma bind_request {A : Type} (self : OdooClient.t) (endpoint : string)
    (params : dict) (k : pyval -> res A) (be : backend) (log : list request) :
  net_bind (OdooClient._request self endpoint params) (fun r => net_lift (k r)) be log
  = (res_bind (OdooClient.settle (be (request_of self endpoint params))) k,
     (log ++ [request_of self endpoint params])%list).
Proof.
  unfold net_bind. rewrite request_run.
  destruct (OdooClient.settle _); reflexivity.
Qed.

(** ** C1: a reply with neither [result] nor [error] *)

Lemma read_reply_no_error (d : dict) :
  Dict.lookup "error" d = None ->
  OdooClient.read_reply (PDict d) = Ret (Dict.get "result" (PDict []) d).
Proof.
  intros H. unfold OdooClient.read_reply, OdooClient.has_error, Dict.mem.
  rewrite H. reflexivity.
Qed.

(** C1, as stated, fails: the empty mapping is read as a success whose
    payload is the empty mapping, and no exception is raised. *)
Lemma C1_empty_reply_is_a_success :
  OdooClient.read_reply (PDict []) = Ret (PDict [])
  /\ (forall e, OdooClient.read_reply (PDict []) <> Raise e)
  /\ fst (OdooClient.count (OdooClient.get_client Config.defaults) "res.partner" None
            (fun _ => Body (PDict [])) []) = Ret (PInt 0).
Proof.
  split; [reflexivity | split; [intros e H; discriminate H | reflexivity]].
Qed.

(** C1, amended: a reply that is a mapping with neither a [result] nor an
    [error] key is read as a success with the empty mapping as its payload,
    and every operation then returns its default. *)
Theorem C1_reply_without_result_or_error (d : dict) :
  Dict.lookup "result" d = None ->
  Dict.lookup "error" d = None ->
  OdooClient.read_reply (PDict d) = Ret (PDict [])
  /\ forall (self : OdooClient.t) (be : backend) (log : list request),
       (forall q, be q = Body (PDict d)) ->
       forall (model method : string) (domain fields ids args : option (list pyval))
              (limit offset id : Z) (order : option string) (values : dict)
              (kwargs : option dict),
         fst (OdooClient.get_server_info self be log) = Ret (PDict [])
         /\ fst (OdooClient.list_models self be log) = Ret (PList [])
         /\ fst (OdooClient.get_fields self model be log) = Ret (PList [])
         /\ fst (OdooClient.search self model domain fields limit offset order be log)
            = Ret (PList [])
         /\ fst (OdooClient.read self model id fields be log) = Ret (PDict [])
         /\ fst (OdooClient.count self model domain be log) = Ret (PInt 0)
         /\ fst (OdooClient.create self model values be log) = Ret PNone
         /\ fst (OdooClient.write self model id values be log) = Ret true
         /\ fst (OdooClient.unlink self model id be log) = Ret true
         /\ fst (OdooClient.execute self model method ids args kwargs be log) = Ret PNone.
Proof.
  intros Hres Herr.
  assert (Hread : OdooClient.read_reply (PDict d) = Ret (PDict [])).
  { rewrite (read_reply_no_error d Herr), get_lookup, Hres. reflexivity. }
  split; [exact Hread |].
  intros self be log Hbe model method domain fields ids args limit offset id order
         values kwargs.
  unfold OdooClient.get_server_info, OdooClient.list_models, OdooClient.get_fields,
    OdooClient.search, OdooClient.read, OdooClient.count, OdooClient.create,
    OdooClient.write, OdooClient.unlink, OdooClient.execute, OdooClient.checked.
  rewrite request_run, !bind_request, !Hbe. simpl OdooClient.settle.
  rewrite Hread. repeat split.
Qed.

(** The amended C1 at the empty mapping. *)
Lemma C1_reply_without_result_or_error_witness :
  Dict.lookup "result" [] = None
  /\ Dict.lookup "error" [] = None
  /\ OdooClient.read_reply (PDict []) = Ret (PDict []).
Proof.
  split; [reflexivity | split; [reflexivity |]].
  exact (proj1 (C1_reply_without_result_or_error [] eq_refl eq_refl)).
Defined.

(** ** C4: a reply with a top-level [error] key *)

(** C4, as stated, fails on the reply of the specification's own example:
    the message of the exception is not the extracted text but that text
    behind a fixed prefix. *)
Lemma C4_error_message_is_prefixed :
  OdooClient.read_reply boom_reply = Raise (OdooError "Odoo error: boom")
  /\ OdooClient.read_reply boom_reply <> Raise (OdooError "boom").
Proof.
  split; [reflexivity | intros H; discriminate H].
Qed.

Lemma read_reply_error (d : dict) (err : pyval) :
  Dict.lookup "error" d = Some err ->
  OdooClient.read_reply (PDict d)
  = (msg <- match err with
            | PDict e => Dict.get_of (Dict.get "data" (PDict []) e) "message"
                           (PStr (Py.str err))
            | _ => Ret (PStr (Py.str err))
            end ;;
     Raise (OdooError ("Odoo error: " ++ Py.str msg)))%res.
Proof.
  intros H. unfold OdooClient.read_reply, OdooClient.has_error, OdooClient.error_of,
    Dict.mem.
  rewrite H. simpl. destruct err; reflexivity.
Qed.

(** C4, amended: a reply whose top level has an [error] key is never read
    as a success; when the error value is not a mapping, or is a mapping
    whose [data] is absent or is a mapping, [OdooError] is raised and its
    message is the prefix "Odoo error: " followed by the string form of
    [error.data.message] when that field is present and of the whole error
    value otherwise. *)
Theorem C4_error_reply_raises_OdooError (d : dict) (err : pyval) :
  Dict.lookup "error" d = Some err ->
  (forall v, OdooClient.read_reply (PDict d) <> Ret v)
  /\ (forall e data m,
        err = PDict e -> Dict.lookup "data" e = Some (PDict data) ->
        Dict.lookup "message" data = Some m ->
        OdooClient.read_reply (PDict d)
        = Raise (OdooError ("Odoo error: " ++ Py.str m)))
  /\ (forall e data,
        err = PDict e -> Dict.lookup "data" e = Some (PDict data) ->
        Dict.lookup "message" data = None ->
        OdooClient.read_reply (PDict d)
        = Raise (OdooError ("Odoo error: " ++ Py.str err)))
  /\ (forall e,
        err = PDict e -> Dict.lookup "data" e = None ->
        OdooClient.read_reply (PDict d)
        = Raise (OdooError ("Odoo error: " ++ Py.str err)))
  /\ ((forall e, err <> PDict e) ->
        OdooClient.read_reply (PDict d)
        = Raise (OdooError ("Odoo error: " ++ Py.str err))).
Proof.
  intros H. rewrite (read_reply_error d err H).
  split; [| split; [| split; [| split]]].
  - intros v. destruct err; simpl; try discriminate.
    destruct (Dict.get "data" (PDict []) entries); simpl; discriminate.
  - intros e data m -> Hdata Hm. simpl.
    rewrite get_lookup, Hdata. simpl. now rewrite get_lookup, Hm.
  - intros e data -> Hdata Hm. simpl.
    rewrite get_lookup, Hdata. simpl. now rewrite get_lookup, Hm.
  - intros e -> Hdata. simpl.
    rewrite get_lookup, Hdata. reflexivity.
  - intros Hnot. destruct err; try reflexivity.
    exfalso. exact (Hnot entries eq_refl).
Qed.

(** The amended C4 at the reply of the specification's example. *)
Lemma C4_error_reply_raises_OdooError_witness :
  Dict.lookup "error" [("error", PDict [("data", PDict [("message", PStr "boom")])])]
  = Some (PDict [("data", PDict [("message", PStr "boom")])])
  /\ OdooClient.read_reply boom_reply = Raise (OdooError "Odoo error: boom").
Proof.
  split; [reflexivity |].
  exact (proj1 (proj2 (C4_error_reply_raises_OdooError
                         [("error", PDict [("data", PDict [("message", PStr "boom")])])]
                         (PDict [("data", PDict [("message", PStr "boom")])])
                         eq_refl))
               [("data", PDict [("message", PStr "boom")])]
               [("message", PStr "boom")] (PStr "boom") eq_refl eq_refl eq_refl).
Defined.

(** ** C3: the soft-error convention inside [result] *)

Lemma raise_if_error_soft (r : dict) :
  Py.truthy (Dict.get "error" PNone r) = true ->
  OdooClient.raise_if_error (PDict r)
  = Raise (OdooError (Py.str (Dict.get "message" (PStr "Unknown error") r))).
Proof.
  intros H. unfold OdooClient.raise_if_error. simpl. now rewrite H.
Qed.

Lemma raise_if_error_clean (r : dict) :
  Py.truthy (Dict.get "error" PNone r) = false ->
  OdooClient.raise_if_error (PDict r) = Ret tt.
Proof.
  intros H. unfold OdooClient.raise_if_error. simpl. now rewrite H.
Qed.

Lemma read_reply_result (top : dict) (r : pyval) :
  Dict.lookup "error" top = None ->
  Dict.lookup "result" top = Some r ->
  OdooClient.read_reply (PDict top) = Ret r.
Proof.
  intros Herr Hres. rewrite (read_reply_no_error top Herr), get_lookup, Hres.
  reflexivity.
Qed.

(** C3: when the reply is a success whose [result] is a mapping with a
    truthy [error] flag, the nine operations that check the flag raise
    [OdooError] with the text of [result.message], or "Unknown error" when
    it is absent; [get_server_info] does not check and returns the
    soft-error mapping as its result. *)
Theorem C3_soft_error_raised_except_by_get_server_info (top r : dict) :
  Dict.lookup "error" top = None ->
  Dict.lookup "result" top = Some (PDict r) ->
  Py.truthy (Dict.get "error" PNone r) = true ->
  forall (self : OdooClient.t) (be : backend) (log : list request),
    (forall q, be q = Body (PDict top)) ->
    forall (model method : string) (domain fields ids args : option (list pyval))
           (limit offset id : Z) (order : option string) (values : dict)
           (kwargs : option dict),
      let e := OdooError (Py.str (Dict.get "message" (PStr "Unknown error") r)) in
      fst (OdooClient.list_models self be log) = Raise e
      /\ fst (OdooClient.get_fields self model be log) = Raise e
      /\ fst (OdooClient.search self model domain fields limit offset order be log)
         = Raise e
      /\ fst (OdooClient.read self model id fields be log) = Raise e
      /\ fst (OdooClient.count self model domain be log) = Raise e
      /\ fst (OdooClient.create self model values be log) = Raise e
      /\ fst (OdooClient.write self model id values be log) = Raise e
      /\ fst (OdooClient.unlink self model id be log) = Raise e
      /\ fst (OdooClient.execute self model method ids args kwargs be log) = Raise e
      /\ fst (OdooClient.get_server_info self be log) = Ret (PDict r).
Proof.
  intros Herr Hres Hflag self be log Hbe model method domain fields ids args limit
         offset id order values kwargs e.
  unfold OdooClient.get_server_info, OdooClient.list_models, OdooClient.get_fields,
    OdooClient.search, OdooClient.read, OdooClient.count, OdooClient.create,
    OdooClient.write, OdooClient.unlink, OdooClient.execute, OdooClient.checked.
  rewrite request_run, !bind_request, !Hbe. simpl OdooClient.settle.
  rewrite (read_reply_result top (PDict r) Herr Hres). simpl res_bind.
  rewrite (raise_if_error_soft r Hflag). repeat split.
Qed.

(** C3 at the soft error of the specification's example. *)
Lemma C3_soft_error_raised_except_by_get_server_info_witness :
  let r := [("error", PBool true); ("message", PStr "nope")] in
  let self := OdooClient.get_client Config.defaults in
  let be : backend := fun _ => Body (PDict [("result", PDict r)]) in
  fst (OdooClient.count self "res.partner" None be []) = Raise (OdooError "nope")
  /\ fst (OdooClient.get_server_info self be []) = Ret (PDict r).
Proof.
  intros r self be.
  pose proof (C3_soft_error_raised_except_by_get_server_info
                [("result", PDict r)] r eq_refl eq_refl eq_refl self be []
                (fun _ => eq_refl) "res.partner" "" None None None None 0 0 0 None []
                None) as H.
  split; [exact (proj1 (proj2 (proj2 (proj2 (proj2 H))))) |].
  exact (proj2 (proj2 (proj2 (proj2 (proj2 (proj2 (proj2 (proj2 (proj2 H))))))))).
Defined.

(** ** C7: a payload without the operation's sub-key *)

Lemma data_get_missing (r : dict) (key : string) (default : pyval) :
  lacks r key = true ->
  OdooClient.data_get (PDict r) key default = Ret default.
Proof.
  unfold lacks, OdooClient.data_get. simpl. rewrite get_lookup.
  destruct (Dict.lookup "data" r) as [[| | | | | | data] |]; try discriminate.
  - simpl. unfold Dict.mem. rewrite get_lookup.
    destruct (Dict.lookup key data); [discriminate | reflexivity].
  - reflexivity.
Qed.




(** ** C5 and C2: the authentication that is sent *)

Lemma opt_truthy_some (o : option string) (k : string) :
  o = Some k -> k <> "" -> Config.opt_truthy o = true.
Proof.
  intros -> Hk. unfold Config.opt_truthy. simpl.
  destruct (String.eqb_spec k ""); [contradiction | reflexivity].
Qed.

Lemma opt_truthy_unset (o : option string) :
  unset o -> Config.opt_truthy o = false.
Proof. intros [-> | ->]; reflexivity. Qed.

Lemma lookup_set (k key : string) (v : pyval) (d : dict) :
  Dict.lookup key (Dict.set k v d)
  = if String.eqb key k then Some v else Dict.lookup key d.
Proof.
  destruct (String.eqb_spec key k) as [-> | Hne].
  - apply lookup_set_same.
  - apply lookup_set_other. congruence.
Qed.

(** A key that names no authentication field goes out as the caller gave it. *)
Lemma add_authentication_other (self : OdooClient.t) (params : dict) (key : string) :
  key <> "api_key" -> key <> "user" -> key <> "password" ->
  Dict.lookup key (OdooClient.add_authentication self params) = Dict.lookup key params.
Proof.
  intros Hk Hu Hp. unfold OdooClient.add_authentication.
  destruct (Config.opt_truthy (OdooClient.api_key self)).
  - rewrite lookup_set. destruct (String.eqb_spec key "api_key"); [contradiction | reflexivity].
  - destruct (Config.opt_truthy (OdooClient.user self)
              && Config.opt_truthy (OdooClient.password self)); [| reflexivity].
    rewrite !lookup_set.
    destruct (String.eqb_spec key "password"); [contradiction |].
    destruct (String.eqb_spec key "user"); [contradiction | reflexivity].
Qed.

(** C5: a non-empty API key is the only field injected, also when the
    credentials are set; without it, a non-empty user and password are the
    two fields injected; otherwise the parameters go out as the caller gave
    them.  In every case the request is sent and the outcome is the one the
    backend decides: nothing fails locally. *)
Theorem C5_authentication_mode (self : OdooClient.t) (params : dict) :
  let sent := OdooClient.add_authentication self params in
  (forall k, OdooClient.api_key self = Some k -> k <> "" ->
     forall key, Dict.lookup key sent
                 = if String.eqb key "api_key" then Some (PStr k)
                   else Dict.lookup key params)
  /\ (forall u p, unset (OdooClient.api_key self) ->
        OdooClient.user self = Some u -> u <> "" ->
        OdooClient.password self = Some p -> p <> "" ->
        forall key, Dict.lookup key sent
                    = if String.eqb key "password" then Some (PStr p)
                      else if String.eqb key "user" then Some (PStr u)
                      else Dict.lookup key params)
  /\ (unset (OdooClient.api_key self) ->
      unset (OdooClient.user self) \/ unset (OdooClient.password self) ->
      sent = params)
  /\ (forall endpoint be log,
        OdooClient._request self endpoint params be log
        = (OdooClient.settle
             (be (MkRequest (OdooClient.url self ++ "/mcp/" ++ endpoint)
                            (OdooClient.envelope sent))),
           (log ++ [MkRequest (OdooClient.url self ++ "/mcp/" ++ endpoint)
                              (OdooClient.envelope sent)])%list)).
Proof.
  intros sent. subst sent. unfold OdooClient.add_authentication.
  split; [| split; [| split]].
  - intros k Hk Hne key. rewrite (opt_truthy_some _ k Hk Hne), Hk. apply lookup_set.
  - intros u p Hkey Hu Hune Hp Hpne key.
    rewrite (opt_truthy_unset _ Hkey), (opt_truthy_some _ u Hu Hune),
      (opt_truthy_some _ p Hp Hpne), Hu, Hp.
    simpl. now rewrite !lookup_set.
  - intros Hkey [Hu | Hp]; rewrite (opt_truthy_unset _ Hkey).
    + now rewrite (opt_truthy_unset _ Hu).
    + rewrite (opt_truthy_unset _ Hp). now rewrite andb_false_r.
  - intros endpoint be log. reflexivity.
Qed.

(** C5 at a profile that holds both an API key and credentials. *)
Lemma C5_authentication_mode_witness :
  OdooClient.api_key keyed_client = Some "K"
  /\ "K" <> ""
  /\ OdooClient.add_authentication keyed_client [("model", PStr "res.partner")]
     = [("model", PStr "res.partner"); ("api_key", PStr "K")]
  /\ Dict.lookup "user"
       (OdooClient.add_authentication keyed_client [("model", PStr "res.partner")])
     = None.
Proof.
  split; [reflexivity | split; [discriminate | split; [reflexivity |]]].
  exact (proj1 (C5_authentication_mode keyed_client [("model", PStr "res.partner")])
               "K" eq_refl (fun H => ltac:(discriminate H)) "user").
Defined.

(** C2, as stated, fails: what is sent under an authentication key that the
    selected mode does not inject is the caller's value.  An anonymous
    profile sends a forged [api_key], so that two calls that differ in the
    forged argument alone send different authentication material, and a
    profile with an API key sends a forged [user] next to its key. *)
Lemma C2_forged_argument_is_sent :
  Dict.lookup "api_key"
    (OdooClient.add_authentication anonymous_client [("api_key", PStr "forged")])
  = Some (PStr "forged")
  /\ Dict.lookup "api_key" (OdooClient.add_authentication anonymous_client []) = None
  /\ OdooClient.user keyed_client = Some "admin"
  /\ OdooClient.add_authentication keyed_client [("user", PStr "forged")]
     = [("user", PStr "forged"); ("api_key", PStr "K")].
Proof. repeat split. Qed.

(** C2, amended: the parameters that go out are the caller's, overridden by
    the fields the profile's authentication mode injects.  With a non-empty
    API key, [api_key] carries the profile's key whatever the caller gave;
    without it and with a non-empty user and password, [user] and [password]
    carry the profile's; every other key, the authentication keys that the
    mode does not inject included, carries the caller's value; and it is
    this mapping that the request sends under [params]. *)
Theorem C2_injected_fields_override_caller (self : OdooClient.t) (params : dict) :
  let sent := OdooClient.add_authentication self params in
  (forall k, OdooClient.api_key self = Some k -> k <> "" ->
     Dict.lookup "api_key" sent = Some (PStr k)
     /\ forall key, key <> "api_key" -> Dict.lookup key sent = Dict.lookup key params)
  /\ (forall u p, unset (OdooClient.api_key self) ->
        OdooClient.user self = Some u -> u <> "" ->
        OdooClient.password self = Some p -> p <> "" ->
        Dict.lookup "user" sent = Some (PStr u)
        /\ Dict.lookup "password" sent = Some (PStr p)
        /\ forall key, key <> "user" -> key <> "password" ->
                       Dict.lookup key sent = Dict.lookup key params)
  /\ (unset (OdooClient.api_key self) ->
      unset (OdooClient.user self) \/ unset (OdooClient.password self) ->
      forall key, Dict.lookup key sent = Dict.lookup key params)
  /\ forall endpoint be log,
       snd (OdooClient._request self endpoint params be log)
       = (log ++ [MkRequest (OdooClient.url self ++ "/mcp/" ++ endpoint)
                    (OdooClient.envelope sent)])%list
       /\ Dict.lookup "params" (OdooClient.envelope sent) = Some (PDict sent).
Proof.
  intros sent. subst sent. unfold OdooClient.add_authentication.
  split; [| split; [| split]].
  - intros k Hk Hne. rewrite (opt_truthy_some _ k Hk Hne), Hk. split.
    + apply lookup_set_same.
    + intros key Hkey. apply lookup_set_other. congruence.
  - intros u p Hkey Hu Hune Hp Hpne.
    rewrite (opt_truthy_unset _ Hkey), (opt_truthy_some _ u Hu Hune),
      (opt_truthy_some _ p Hp Hpne), Hu, Hp.
    simpl. split; [| split].
    + rewrite lookup_set_other by discriminate. apply lookup_set_same.
    + apply lookup_set_same.
    + intros key Hnu Hnp.
      rewrite lookup_set_other by congruence. apply lookup_set_other. congruence.
  - intros Hkey [Hu | Hp] key; rewrite (opt_truthy_unset _ Hkey).
    + now rewrite (opt_truthy_unset _ Hu).
    + rewrite (opt_truthy_unset _ Hp). now rewrite andb_false_r.
  - intros endpoint be log. split; reflexivity.
Qed.

(** The amended C2 at a profile with an API key and a caller that forges
    both an API key and a user. *)
Lemma C2_injected_fields_override_caller_witness :
  OdooClient.api_key keyed_client = Some "K"
  /\ "K" <> ""
  /\ Dict.lookup "api_key"
       (OdooClient.add_authentication keyed_client
          [("api_key", PStr "forged"); ("user", PStr "mallory")])
     = Some (PStr "K")
  /\ Dict.lookup "user"
       (OdooClient.add_authentication keyed_client
          [("api_key", PStr "forged"); ("user", PStr "mallory")])
     = Some (PStr "mallory").
Proof.
  split; [reflexivity | split; [discriminate |]].
  pose proof (proj1 (C2_injected_fields_override_caller keyed_client
                       [("api_key", PStr "forged"); ("user", PStr "mallory")])
                    "K" eq_refl ltac:(discriminate)) as [Hkey Hother].
  split; [exact Hkey |].
  exact (Hother "user" ltac:(discriminate)).
Defined.

(** ** C6: the limit that [search_records] sends *)

Lemma snd_except_OdooError_Exception {A : Type} (m : Net A) (h1 h2 : string -> A)
    (be : backend) (log : list request) :
  snd (Server.except_OdooError_Exception m h1 h2 be log) = snd (m be log).
Proof.
  unfold Server.except_OdooError_Exception.
  destruct (m be log) as [[a | []] log']; reflexivity.
Qed.

(** A continuation that sends nothing leaves the log as the first part
    left it. *)
Lemma snd_net_bind {A B : Type} (m : Net A) (k : A -> Net B)
    (be : backend) (log : list request) :
  (forall a log', snd (k a be log') = log') ->
  snd (net_bind m k be log) = snd (m be log).
Proof.
  intros Hk. unfold net_bind.
  destruct (m be log) as [[a | e] log']; [apply Hk | reflexivity].
Qed.

Lemma search_log (self : OdooClient.t) (model : string)
    (domain fields : option (list pyval)) (limit offset : Z) (order : option string)
    (be : backend) (log : list request) :
  snd (OdooClient.search self model domain fields limit offset order be log)
  = (log ++ [request_of self "search"
               [("model", PStr model);
                ("domain", Py.or_ (Py.of_opt_list domain) (PList []));
                ("fields", Py.of_opt_list fields);
                ("limit", PInt limit);
                ("offset", PInt offset);
                ("order", Py.of_opt_str order)]])%list.
Proof.
  unfold OdooClient.search, OdooClient.checked. now rewrite bind_request.
Qed.

(** C6: whatever the caller's limit, [search_records] sends exactly one
    request, and the [limit] parameter of that request is the smaller of
    the caller's limit and the configured maximum. *)
Theorem C6_search_limit_is_clamped (settings : Config.Settings) (model : string)
    (domain fields : option (list pyval)) (limit offset : Z) (order : option string)
    (be : backend) (log : list request) :
  exists (req : request) (params : dict),
    snd (Server.search_records settings model domain fields limit offset order be log)
    = (log ++ [req])%list
    /\ Dict.lookup "params" (req_json req) = Some (PDict params)
    /\ Dict.lookup "limit" params
       = Some (PInt (Z.min limit (Config.max_records settings))).
Proof.
  unfold Server.search_records.
  rewrite snd_except_OdooError_Exception, snd_net_bind, search_log.
  - eexists. eexists. split; [reflexivity | split; [reflexivity |]].
    rewrite add_authentication_other by discriminate. reflexivity.
  - intros a log'. destruct (negb (Py.truthy a)); reflexivity.
Qed.

(** C6 at the figures of the specification: a limit of 10000 under a
    maximum of 100 goes out as 100. *)
Lemma search_limit_10000_under_100 :
  map (fun req => match Dict.lookup "params" (req_json req) with
                  | Some (PDict params) => Dict.lookup "limit" params
                  | _ => None
                  end)
      (snd (Server.search_records Config.defaults "res.partner" None None 10000 0 None
              (fun _ => Body (PDict [])) []))
  = [Some (PInt 100)].
Proof. reflexivity. Qed.

(** ** C8: the rendering of the example record *)

(** C8, as stated, fails: no line of the rendering is
    [partner_id: Bob (ID: 3)], nor does that text occur anywhere in it; the
    relation is a bullet whose key is set in bold. *)
Lemma C8_relation_line_is_a_bold_bullet :
  ~ In "partner_id: Bob (ID: 3)" (Format.record_lines "res.partner" acme_record)
  /\ match Format.format_record "res.partner" (PDict acme_record) with
     | Ret text => PyString.contains "partner_id: Bob (ID: 3)" text
     | Raise _ => true
     end = false
  /\ In "- **partner_id**: Bob (ID: 3)" (Format.record_lines "res.partner" acme_record).
Proof.
  split; [| split].
  - intros H. vm_compute in H. repeat destruct H as [H | H]; try discriminate H.
    exact H.
  - vm_compute. reflexivity.
  - vm_compute. tauto.
Qed.

(** C8, amended: the example record renders, under any model name, as a
    heading, the name among the basic fields, the relation as the line
    [- **partner_id**: Bob (ID: 3)], and the collection as the line
    [- **tag_ids**: 6 items: [1, 2, 3, 4, 5]...], that is its count of 6, its
    first five items and the ellipsis. *)
Theorem C8_example_record_rendering (model : string) :
  Format.format_record model (PDict acme_record)
  = Ret (PyString.join PyString.nl
           [ "# " ++ model ++ ": Acme (ID: 5)" ++ PyString.nl;
             "## Basic Information";
             "- **name**: Acme";
             PyString.nl ++ "## Related Records";
             "- **partner_id**: Bob (ID: 3)";
             PyString.nl ++ "## Other Data";
             "- **tag_ids**: 6 items: [1, 2, 3, 4, 5]..." ]).
Proof. reflexivity. Qed.

(** ** C10: two-element lists in the formatters *)

Lemma many2one_pair (first second : pyval) :
  Py.is_int first = true ->
  Format.many2one (PList [first; second]) = Some (first, second).
Proof. intros H. simpl. now rewrite H. Qed.

Lemma many2one_inv (items : list pyval) (first second : pyval) :
  Format.many2one (PList items) = Some (first, second) ->
  items = [first; second] /\ Py.is_int first = true.
Proof.
  destruct items as [| a [| b [| c rest]]]; simpl; try discriminate.
  destruct (Py.is_int a) eqn:E; [| discriminate].
  intros H. injection H as <- <-. now split.
Qed.

Lemma place_keeps_relations (g : Format.groups) (item : string * pyval)
    (x : string * string) :
  In x (Format.relation_fields g) -> In x (Format.relation_fields (Format.place g item)).
Proof.
  intros H. destruct item as [key value]. unfold Format.place.
  destruct (Format.key_in key _); [exact H |].
  destruct (Py.is_blank value); [exact H |].
  destruct (Format.many2one value) as [[first second] |].
  - simpl. apply in_or_app. now left.
  - destruct value; simpl; try exact H.
    destruct items; exact H.
Qed.

Lemma fold_place_keeps_relations (items : dict) (g : Format.groups)
    (x : string * string) :
  In x (Format.relation_fields g) ->
  In x (Format.relation_fields (fold_left Format.place items g)).
Proof.
  revert g. induction items as [| item items IH]; intros g H; simpl.
  - exact H.
  - apply IH. now apply place_keeps_relations.
Qed.

Lemma place_relation (g : Format.groups) (key : string) (first second : pyval) :
  Format.key_in key record_reserved = false ->
  Py.is_int first = true ->
  Format.place g (key, PList [first; second])
  = Format.MkGroups (Format.basic_fields g)
      (Format.relation_fields g ++ [(key, Format.relation_text first second)])%list
      (Format.other_fields g).
Proof.
  intros Hkey Hint. unfold Format.place. unfold record_reserved in Hkey.
  rewrite Hkey. simpl Py.is_blank. cbv iota.
  now rewrite (many2one_pair first second Hint).
Qed.

Lemma fold_place_relation (items : dict) (g : Format.groups) (key : string)
    (first second : pyval) :
  In (key, PList [first; second]) items ->
  Format.key_in key record_reserved = false ->
  Py.is_int first = true ->
  In (key, Format.relation_text first second)
     (Format.relation_fields (fold_left Format.place items g)).
Proof.
  intros Hin Hkey Hint. revert g.
  induction items as [| item items IH]; intros g; [contradiction |].
  simpl. destruct Hin as [-> | Hin].
  - apply fold_place_keeps_relations. rewrite (place_relation g key first second Hkey Hint).
    simpl. apply in_or_app. right. now left.
  - now apply IH.
Qed.

Lemma in_section (title line : string) (body : list string) :
  In line body -> In line (Format.section title body).
Proof. destruct body; [contradiction | intros H; now right]. Qed.

Lemma field_lines_in (d : dict) (item : string * pyval) (line : string) :
  In item d -> Format.field_line item = Some line -> In line (Format.field_lines d).
Proof.
  intros Hin Hline. induction d as [| item' d IH]; [contradiction |].
  simpl. destruct Hin as [-> | Hin].
  - rewrite Hline. now left.
  - destruct (Format.field_line item'); [right |]; now apply IH.
Qed.

Lemma field_line_relation (key : string) (first second : pyval) :
  Format.key_in key records_reserved = false ->
  Py.is_int first = true ->
  Format.field_line (key, PList [first; second])
  = Some (Format.bullet key (Format.relation_text first second)).
Proof.
  intros Hkey Hint. unfold Format.field_line. unfold records_reserved in Hkey.
  rewrite Hkey. simpl Py.is_blank. cbv iota.
  now rewrite (many2one_pair first second Hint).
Qed.

Lemma all_records_in (recs : list pyval) (lines : list string) (d : dict)
    (line : string) :
  Format.all_records recs = Ret lines ->
  In (PDict d) recs ->
  In line (Format.field_lines d) ->
  In line lines.
Proof.
  revert lines. induction recs as [| rec recs IH]; intros lines Hall Hin Hline;
    [contradiction |].
  simpl in Hall.
  destruct (Format.one_record rec) as [here | e] eqn:Hone; [| discriminate].
  destruct (Format.all_records recs) as [after | e]; [| discriminate].
  simpl in Hall. injection Hall as <-.
  apply in_or_app. destruct Hin as [-> | Hin].
  - left. simpl in Hone. injection Hone as <-.
    right. apply in_or_app. now left.
  - right. now apply (IH after eq_refl).
Qed.

(** C10, as stated, fails: a list of two elements whose first is not an
    integer gets the collection rendering in both formatters, though its
    length is two; and a two-element list with an integer first that sits
    under a key the formatter reserves for the heading gives no relation
    line. *)
Lemma C10_two_strings_render_as_a_collection :
  Format.record_lines "m" [("x", PList [PStr "a"; PStr "b"])]
  = ["# m: ID ? (ID: ?)" ++ PyString.nl;
     PyString.nl ++ "## Other Data";
     "- **x**: 2 items: ['a', 'b']"]
  /\ Format.all_records [PDict [("x", PList [PStr "a"; PStr "b"]);
                               ("name", PList [PInt 1; PInt 2])]]
     = Ret ["## [1, 2] (ID: ?)"; "- **x**: a, b"; ""].
Proof. split; reflexivity. Qed.

(** C10, amended: in both formatters a field under a key that is not
    reserved for the heading, whose value is a list of exactly two elements
    with an integer (or boolean) first element, is rendered as the relation
    "second (ID: first)", also when both elements are plain integers; every
    other non-blank list, of another length or of two elements whose first
    is not an integer, gets the collection rendering (in [format_record],
    when it is not empty). *)
Theorem C10_two_element_integer_list_is_a_relation (key : string) (first second : pyval) :
  Py.is_int first = true ->
  (Format.key_in key record_reserved = false ->
   forall model record,
     In (key, PList [first; second]) record ->
     In ("- **" ++ key ++ "**: " ++ Py.str second ++ " (ID: " ++ Py.str first ++ ")")
        (Format.record_lines model record))
  /\ (Format.key_in key records_reserved = false ->
      forall recs lines d,
        Format.all_records recs = Ret lines ->
        In (PDict d) recs ->
        In (key, PList [first; second]) d ->
        In ("- **" ++ key ++ "**: " ++ Py.str second ++ " (ID: " ++ Py.str first ++ ")")
           lines)
  /\ (forall items g,
        Format.key_in key record_reserved = false ->
        Format.many2one (PList items) = None ->
        items <> [] ->
        Format.place g (key, PList items)
        = Format.MkGroups (Format.basic_fields g) (Format.relation_fields g)
            (Format.other_fields g ++ [(key, Format.collection_text items)])%list)
  /\ (forall items,
        Format.key_in key records_reserved = false ->
        Format.many2one (PList items) = None ->
        Format.field_line (key, PList items)
        = Some ("- **" ++ key ++ "**: " ++ PyString.join ", " (map Py.str items)))
  /\ (forall items,
        Format.many2one (PList items) = None <->
        (length items <> 2%nat
         \/ exists a b, items = [a; b] /\ Py.is_int a = false)).
Proof.
  intros Hint. split; [| split; [| split; [| split]]].
  - intros Hkey model record Hin. unfold Format.record_lines.
    apply in_or_app. right. apply in_or_app. right. apply in_or_app. left.
    apply in_section.
    apply (in_map (fun kv => Format.bullet (fst kv) (snd kv))
                  _ (key, Format.relation_text first second)).
    now apply fold_place_relation.
  - intros Hkey recs lines d Hall Hrec Hin.
    apply (all_records_in recs lines d _ Hall Hrec).
    apply (field_lines_in d (key, PList [first; second]) _ Hin).
    now apply field_line_relation.
  - intros items g Hkey Hnone Hne. unfold Format.place. unfold record_reserved in Hkey.
    rewrite Hkey. simpl Py.is_blank. cbv iota. rewrite Hnone.
    destruct items; [contradiction | reflexivity].
  - intros items Hkey Hnone. unfold Format.field_line.
    unfold records_reserved in Hkey. rewrite Hkey. simpl Py.is_blank. cbv iota.
    now rewrite Hnone.
  - intros items. split.
    + intros Hnone.
      destruct items as [| a [| b [| c rest]]]; simpl; try (left; discriminate).
      right. exists a, b. split; [reflexivity |].
      simpl in Hnone. destruct (Py.is_int a); [discriminate | reflexivity].
    + intros [Hlen | (a & b & -> & Ha)].
      * destruct items as [| a [| b [| c rest]]]; try reflexivity.
        exfalso. now apply Hlen.
      * simpl. now rewrite Ha.
Qed.

(** The amended C10 at a many2many field that holds two identifiers. *)
Lemma C10_two_element_integer_list_is_a_relation_witness :
  Py.is_int (PInt 1) = true
  /\ Format.key_in "tag_ids" record_reserved = false
  /\ In "- **tag_ids**: 2 (ID: 1)"
        (Format.record_lines "res.partner" [("tag_ids", PList [PInt 1; PInt 2])]).
Proof.
  split; [reflexivity | split; [reflexivity |]].
  exact (proj1 (C10_two_element_integer_list_is_a_relation "tag_ids" (PInt 1) (PInt 2)
                  eq_refl)
               eq_refl "res.partner" [("tag_ids", PList [PInt 1; PInt 2])]
               (or_introl eq_refl)).
Defined.

(** ** C9: what a failure looks like to the caller *)

Lemma except_OdooError_caught {A B : Type} (m : Net A) (k : A -> Net B)
    (h : string -> B) (be : backend) (log : list request) (msg : string) :
  fst (m be log) = Raise (OdooError msg) ->
  fst (except_OdooError (net_bind m k) h be log) = Ret (h msg).
Proof.
  unfold except_OdooError, net_bind.
  destruct (m be log) as [[a | e] log']; simpl; intros H; [discriminate |].
  now injection H as ->.
Qed.

Lemma except_both_caught_OdooError {A B : Type} (m : Net A) (k : A -> Net B)
    (h1 h2 : string -> B) (be : backend) (log : list request) (msg : string) :
  fst (m be log) = Raise (OdooError msg) ->
  fst (Server.except_OdooError_Exception (net_bind m k) h1 h2 be log) = Ret (h1 msg).
Proof.
  unfold Server.except_OdooError_Exception, net_bind.
  destruct (m be log) as [[a | e] log']; simpl; intros H; [discriminate |].
  now injection H as ->.
Qed.

Lemma except_both_caught_other {A B : Type} (m : Net A) (k : A -> Net B)
    (h1 h2 : string -> B) (be : backend) (log : list request) (e : exn) :
  (forall msg, e <> OdooError msg) ->
  fst (m be log) = Raise e ->
  fst (Server.except_OdooError_Exception (net_bind m k) h1 h2 be log)
  = Ret (h2 (exn_str e)).
Proof.
  unfold Server.except_OdooError_Exception, net_bind. intros Hother.
  destruct (m be log) as [[a | e'] log']; simpl; intros H; [discriminate |].
  injection H as ->.
  destruct e; try reflexivity. exfalso. exact (Hother msg eq_refl).
Qed.

Lemma net_bind_raise {A B : Type} (m : Net A) (k : A -> Net B)
    (be : backend) (log : list request) (e : exn) :
  fst (m be log) = Raise e -> fst (net_bind m k be log) = Raise e.
Proof.
  unfold net_bind. destruct (m be log) as [[a | e'] log']; simpl; intros H;
    [discriminate | now injection H as ->].
Qed.

(** C9, as stated, fails: a resource converts nothing, so that the
    [OdooError] of a refused connection leaves [resource_record] as an
    exception; [search_and_read_one] answers with a text that names neither
    the operation nor the model; and a reply of the wrong shape makes
    [get_record] raise [AttributeError]. *)
Lemma C9_resource_record_lets_the_error_through :
  fst (Server.resource_record Config.defaults "res.partner" "7"
         (fun _ => ConnFail "refused") [])
  = Raise (OdooError "Connection error: refused")
  /\ fst (Server.search_and_read_one Config.defaults "res.partner" [] None
            (fun _ => ConnFail "refused") [])
     = Ret "Error: Connection error: refused"
  /\ fst (Server.get_record Config.defaults "res.partner" 7 None
            (fun _ => Body (PDict [("result", PList [PInt 1])])) [])
     = Raise (AttributeError "'list' object has no attribute 'get'").
Proof. repeat split. Qed.

Lemma except_OdooError_lets_through {A B : Type} (m : Net A) (k : A -> Net B)
    (h : string -> B) (be : backend) (log : list request) (e : exn) :
  (forall msg, e <> OdooError msg) ->
  fst (m be log) = Raise e ->
  fst (except_OdooError (net_bind m k) h be log) = Raise e.
Proof.
  unfold except_OdooError, net_bind. intros Hother.
  destruct (m be log) as [[a | e'] log']; simpl; intros H; [discriminate |].
  injection H as ->.
  destruct e; try reflexivity. exfalso. exact (Hother msg eq_refl).
Qed.

(** C9, amended: when the client operation behind a tool raises [OdooError]
    (a refused connection, an HTTP error status, a protocol-level error or
    a soft error), each of the eleven tools returns a text made of a fixed
    prefix and the message of the error.  The prefix names the operation
    and the model, with the record or the method where the tool has one,
    except in [get_record_name] and [search_and_read_one].  When the client
    operation raises an exception of another class, [search_records] alone
    turns it into a text; the other ten tools raise that same exception.
    The resources turn nothing into a text: whatever their client operation
    raises, [OdooError] or not, leaves them as it is. *)
Theorem C9_tools_report_OdooError (settings : Config.Settings)
    (json_dumps_indent2 json_dumps : pyval -> string)
    (py_eq : pyval -> pyval -> bool)
    (py_sorted : forall A : Type, list (pyval * A) -> res (list (pyval * A)))
    (str_title : string -> string)
    (be : backend) (log : list request) (msg : string) :
  let client := OdooClient.get_client settings in
  let failed {A : Type} (m : Net A) := fst (m be log) = Raise (OdooError msg) in
  let raised {A : Type} (e : exn) (m : Net A) := fst (m be log) = Raise e in
  let other (e : exn) := forall m, e <> OdooError m in
  (forall model domain fields limit offset order,
     failed (OdooClient.search client model domain fields
               (Z.min limit (Config.max_records settings)) offset order) ->
     fst (Server.search_records settings model domain fields limit offset order be log)
     = Ret ("Error searching " ++ model ++ ": " ++ msg))
  /\ (forall model id fields,
        failed (OdooClient.read client model id fields) ->
        fst (Server.get_record settings model id fields be log)
        = Ret ("Error reading " ++ model ++ " record " ++ PyString.of_Z id ++ ": " ++ msg))
  /\ (forall model domain,
        failed (OdooClient.count client model domain) ->
        fst (Server.count_records settings model domain be log)
        = Ret ("Error counting " ++ model ++ ": " ++ msg))
  /\ (failed (OdooClient.list_models client) ->
      fst (Server.list_models settings be log) = Ret ("Error listing models: " ++ msg))
  /\ (forall model field_types,
        failed (OdooClient.get_fields client model) ->
        fst (Server.get_model_fields settings py_eq py_sorted str_title model field_types
               be log)
        = Ret ("Error getting fields for " ++ model ++ ": " ++ msg))
  /\ (forall model values,
        failed (OdooClient.create client model values) ->
        fst (Server.create_record settings model values be log)
        = Ret ("❌ Error creating " ++ model ++ ": " ++ msg))
  /\ (forall model id values,
        failed (OdooClient.write client model id values) ->
        fst (Server.update_record settings model id values be log)
        = Ret ("❌ Error updating " ++ model ++ " record " ++ PyString.of_Z id
               ++ ": " ++ msg))
  /\ (forall model id,
        failed (OdooClient.unlink client model id) ->
        fst (Server.delete_record settings model id be log)
        = Ret ("❌ Error deleting " ++ model ++ " record " ++ PyString.of_Z id
               ++ ": " ++ msg))
  /\ (forall model method ids args kwargs,
        failed (OdooClient.execute client model method ids args kwargs) ->
        fst (Server.execute_method settings json_dumps_indent2 model method ids args
               kwargs be log)
        = Ret ("❌ Error executing " ++ method ++ " on " ++ model ++ ": " ++ msg))
  /\ (forall model id,
        failed (OdooClient.read client model id (Some [PStr "display_name"])) ->
        fst (Server.get_record_name settings model id be log)
        = Ret (PStr ("Record not found: " ++ msg)))
  /\ (forall model domain fields,
        failed (OdooClient.search client model (Some domain) fields 1 0 None) ->
        fst (Server.search_and_read_one settings model domain fields be log)
        = Ret ("Error: " ++ msg))
  /\ (forall model domain fields limit offset order e,
        other e ->
        raised e (OdooClient.search client model domain fields
                    (Z.min limit (Config.max_records settings)) offset order) ->
        fst (Server.search_records settings model domain fields limit offset order be log)
        = Ret ("Unexpected error: " ++ exn_str e))
  /\ (forall e, other e ->
        (forall model id fields,
           raised e (OdooClient.read client model id fields) ->
           raised e (Server.get_record settings model id fields))
        /\ (forall model domain,
              raised e (OdooClient.count client model domain) ->
              raised e (Server.count_records settings model domain))
        /\ (raised e (OdooClient.list_models client) ->
            raised e (Server.list_models settings))
        /\ (forall model field_types,
              raised e (OdooClient.get_fields client model) ->
              raised e (Server.get_model_fields settings py_eq py_sorted str_title model
                          field_types))
        /\ (forall model values,
              raised e (OdooClient.create client model values) ->
              raised e (Server.create_record settings model values))
        /\ (forall model id values,
              raised e (OdooClient.write client model id values) ->
              raised e (Server.update_record settings model id values))
        /\ (forall model id,
              raised e (OdooClient.unlink client model id) ->
              raised e (Server.delete_record settings model id))
        /\ (forall model method ids args kwargs,
              raised e (OdooClient.execute client model method ids args kwargs) ->
              raised e (Server.execute_method settings json_dumps_indent2 model method ids
                          args kwargs))
        /\ (forall model id,
              raised e (OdooClient.read client model id (Some [PStr "display_name"])) ->
              raised e (Server.get_record_name settings model id))
        /\ (forall model domain fields,
              raised e (OdooClient.search client model (Some domain) fields 1 0 None) ->
              raised e (Server.search_and_read_one settings model domain fields)))
  /\ (forall e,
        (raised e (OdooClient.list_models client) ->
         raised e (Server.resource_models settings json_dumps_indent2))
        /\ (forall model,
              raised e (OdooClient.get_fields client model) ->
              raised e (Server.resource_model_fields settings json_dumps_indent2 model))
        /\ (forall model record_id id,
              Server.IntLiteral.parse record_id = Ret id ->
              raised e (OdooClient.read client model id None) ->
              raised e (Server.resource_record settings model record_id))
        /\ (forall model,
              raised e (OdooClient.count client model (Some [])) ->
              raised e (Server.resource_count settings json_dumps model))).
Proof.
  intros client failed raised other. subst failed raised other. cbv beta.
  repeat match goal with |- _ /\ _ => split end; intros.
  - unfold Server.search_records.
    erewrite except_both_caught_OdooError; [reflexivity | eassumption].
  - unfold Server.get_record.
    erewrite except_OdooError_caught; [reflexivity | eassumption].
  - unfold Server.count_records.
    erewrite except_OdooError_caught; [reflexivity | eassumption].
  - unfold Server.list_models.
    erewrite except_OdooError_caught; [reflexivity | eassumption].
  - unfold Server.get_model_fields.
    erewrite except_OdooError_caught; [reflexivity | eassumption].
  - unfold Server.create_record.
    erewrite except_OdooError_caught; [reflexivity | eassumption].
  - unfold Server.update_record.
    erewrite except_OdooError_caught; [reflexivity | eassumption].
  - unfold Server.delete_record.
    erewrite except_OdooError_caught; [reflexivity | eassumption].
  - unfold Server.execute_method.
    erewrite except_OdooError_caught; [reflexivity | eassumption].
  - unfold Server.get_record_name.
    erewrite except_OdooError_caught; [reflexivity | eassumption].
  - unfold Server.search_and_read_one.
    erewrite except_OdooError_caught; [reflexivity | eassumption].
  - unfold Server.search_records.
    erewrite except_both_caught_other; [reflexivity | eassumption | eassumption].
  - repeat match goal with |- _ /\ _ => split end; intros;
      (unfold Server.get_record, Server.count_records, Server.list_models,
         Server.get_model_fields, Server.create_record, Server.update_record,
         Server.delete_record, Server.execute_method, Server.get_record_name,
         Server.search_and_read_one;
       apply except_OdooError_lets_through; assumption).
  - repeat match goal with |- _ /\ _ => split end; intros.
    + now apply net_bind_raise.
    + now apply net_bind_raise.
    + unfold Server.resource_record.
      match goal with H : Server.IntLiteral.parse _ = _ |- _ =>
        unfold net_bind at 1; unfold net_lift at 1; rewrite H end.
      now apply net_bind_raise.
    + now apply net_bind_raise.
Qed.

(** The amended C9 at a refused connection, which [search_records] reports,
    and at a reply whose [result] is a list, on which [get_record] raises
    the [AttributeError] of the client. *)
Lemma C9_tools_report_OdooError_witness :
  (fst (OdooClient.search (OdooClient.get_client Config.defaults) "res.partner" None None
          (Z.min 80 (Config.max_records Config.defaults)) 0 None
          (fun _ => ConnFail "refused") [])
   = Raise (OdooError "Connection error: refused")
   /\ fst (Server.search_records Config.defaults "res.partner" None None 80 0 None
             (fun _ => ConnFail "refused") [])
      = Ret "Error searching res.partner: Connection error: refused")
  /\ (fst (OdooClient.read (OdooClient.get_client Config.defaults) "res.partner" 7 None
             (fun _ => Body (PDict [("result", PList [PInt 1])])) [])
      = Raise (AttributeError "'list' object has no attribute 'get'")
      /\ fst (Server.get_record Config.defaults "res.partner" 7 None
                (fun _ => Body (PDict [("result", PList [PInt 1])])) [])
         = Raise (AttributeError "'list' object has no attribute 'get'")).
Proof.
  split; (split; [reflexivity |]).
  - exact (proj1 (C9_tools_report_OdooError Config.defaults Py.repr Py.repr
                    (fun _ _ => false) (fun _ l => Ret l) (fun s => s)
                    (fun _ => ConnFail "refused") [] "Connection error: refused")
                 "res.partner" None None 80 0 None eq_refl).
  - pose proof (C9_tools_report_OdooError Config.defaults Py.repr Py.repr
                  (fun _ _ => false) (fun _ l => Ret l) (fun s => s)
                  (fun _ => Body (PDict [("result", PList [PInt 1])])) [] "") as H.
    cbv zeta in H.
    do 12 (apply proj2 in H).
    apply proj1 in H.
    refine (proj1 (H (AttributeError "'list' object has no attribute 'get'") _)
                  "res.partner" 7 None eq_refl).
    intros m; discriminate.
Defined.

(** * Further properties of the client *)

(** ** One request per operation *)

Lemma settle_raise_all (self : OdooClient.t) (be : backend) (log : list request)
    (e : exn) :
  (forall q, OdooClient.settle (be q) = Raise e) ->
  all_operations_raise self be log e.
Proof.
  intros H model method domain fields ids args limit offset id order values kwargs.
  unfold OdooClient.get_server_info, OdooClient.list_models, OdooClient.get_fields,
    OdooClient.search, OdooClient.read, OdooClient.count, OdooClient.create,
    OdooClient.write, OdooClient.unlink, OdooClient.execute, OdooClient.checked.
  rewrite request_run, !bind_request, !H. repeat split.
Qed.

(** X1: whatever the backend answers, each operation sends exactly one
    request, to the endpoint of its own token under [/mcp/], with its
    arguments under fixed names; nothing is sent twice, also on failure.
    The keyword arguments of [execute] travel as [kwargs_data]. *)
Theorem X1_one_request_per_operation (self : OdooClient.t) (be : backend)
    (log : list request) (model method : string)
    (domain fields ids args : option (list pyval)) (limit offset id : Z)
    (order : option string) (values : dict) (kwargs : option dict) :
  let sent {A : Type} (m : Net A) (endpoint : string) (params : dict) :=
    snd (m be log)
    = (log ++ [MkRequest (OdooClient.url self ++ "/mcp/" ++ endpoint)
                 [("jsonrpc", PStr "2.0"); ("method", PStr "call");
                  ("params", PDict (OdooClient.add_authentication self params));
                  ("id", PInt 1)]])%list in
  sent (OdooClient.get_server_info self) "info" []
  /\ sent (OdooClient.list_models self) "models" []
  /\ sent (OdooClient.get_fields self model) "fields" [("model", PStr model)]
  /\ sent (OdooClient.search self model domain fields limit offset order) "search"
       [("model", PStr model);
        ("domain", PList (match domain with Some d => d | None => [] end));
        ("fields", Py.of_opt_list fields); ("limit", PInt limit);
        ("offset", PInt offset); ("order", Py.of_opt_str order)]
  /\ sent (OdooClient.read self model id fields) "read"
       [("model", PStr model); ("record_id", PInt id);
        ("fields", Py.of_opt_list fields)]
  /\ sent (OdooClient.count self model domain) "count"
       [("model", PStr model);
        ("domain", PList (match domain with Some d => d | None => [] end))]
  /\ sent (OdooClient.create self model values) "create"
       [("model", PStr model); ("values", PDict values)]
  /\ sent (OdooClient.write self model id values) "write"
       [("model", PStr model); ("record_id", PInt id); ("values", PDict values)]
  /\ sent (OdooClient.unlink self model id) "unlink"
       [("model", PStr model); ("record_id", PInt id)]
  /\ sent (OdooClient.execute self model method ids args kwargs) "execute"
       [("model", PStr model); ("method", PStr method);
        ("record_ids", Py.of_opt_list ids); ("args", Py.of_opt_list args);
        ("kwargs_data", Py.of_opt_dict kwargs)].
Proof.
  intros sent. subst sent. cbv beta.
  assert (Hdom : Py.or_ (Py.of_opt_list domain) (PList [])
                 = PList (match domain with Some d => d | None => [] end)).
  { destruct domain as [[| x d] |]; reflexivity. }
  unfold OdooClient.get_server_info, OdooClient.list_models, OdooClient.get_fields,
    OdooClient.search, OdooClient.read, OdooClient.count, OdooClient.create,
    OdooClient.write, OdooClient.unlink, OdooClient.execute, OdooClient.checked.
  rewrite request_run, !bind_request, !Hdom. repeat split.
Qed.

(** ** Failures of the exchange *)

(** X2: a failed exchange and an HTTP error status make every operation
    raise [OdooError], with the text "Connection error: " or
    "HTTP error <status>: " before the detail. *)
Theorem X2_transport_failure_raises_OdooError (self : OdooClient.t) (be : backend)
    (log : list request) :
  (forall detail,
     (forall q, be q = ConnFail detail) ->
     all_operations_raise self be log (OdooError ("Connection error: " ++ detail)))
  /\ (forall status body,
        (forall q, be q = BadStatus status body) ->
        all_operations_raise self be log
          (OdooError ("HTTP error " ++ PyString.of_Z status ++ ": " ++ body))).
Proof.
  split.
  - intros detail H. apply settle_raise_all. intros q. now rewrite H.
  - intros status body H. apply settle_raise_all. intros q. now rewrite H.
Qed.

(** X2 at a gateway error. *)
Lemma X2_transport_failure_raises_OdooError_witness :
  fst (OdooClient.count anonymous_client "res.partner" None
         (fun _ => BadStatus 502 "Bad Gateway") [])
  = Raise (OdooError "HTTP error 502: Bad Gateway").
Proof.
  exact (proj1 (proj2 (proj2 (proj2 (proj2 (proj2
    (proj2 (X2_transport_failure_raises_OdooError anonymous_client
              (fun _ => BadStatus 502 "Bad Gateway") [])
           502 "Bad Gateway" (fun _ => eq_refl)
           "res.partner" "" None None None None 0 0 0 None [] None))))))).
Defined.

(** X3: a body that is not JSON is not turned into [OdooError]: every
    operation raises the decoder's [ValueError]; [search_records] reports it
    as an unexpected error, while [get_record] lets it through. *)
Theorem X3_undecodable_body_is_not_an_OdooError (settings : Config.Settings)
    (self : OdooClient.t) (be : backend) (log : list request) (detail : string) :
  (forall q, be q = BadBody detail) ->
  all_operations_raise self be log (ValueError detail)
  /\ (forall model domain fields limit offset order,
        fst (Server.search_records settings model domain fields limit offset order
               be log)
        = Ret ("Unexpected error: " ++ detail))
  /\ (forall model id fields,
        fst (Server.get_record settings model id fields be log)
        = Raise (ValueError detail)).
Proof.
  intros H.
  assert (Hall : forall c, all_operations_raise c be log (ValueError detail)).
  { intros c. apply settle_raise_all. intros q. now rewrite H. }
  split; [apply Hall | split].
  - intros model domain fields limit offset order. unfold Server.search_records.
    rewrite (except_both_caught_other _ _ _ _ be log (ValueError detail));
      [reflexivity | discriminate |].
    apply (Hall (OdooClient.get_client settings)
             model "" domain fields None None _ offset 0 order [] None).
  - intros model id fields. unfold Server.get_record, except_OdooError, net_bind.
    pose proof (Hall (OdooClient.get_client settings)
                  model "" None fields None None 0 0 id None [] None) as Hops.
    destruct Hops as (_ & _ & _ & _ & Hread & _).
    destruct (OdooClient.read _ model id fields be log) as [[a | e] log'];
      simpl in *; [discriminate |].
    now injection Hread as ->.
Qed.

(** X3 at an HTML error page. *)
Lemma X3_undecodable_body_is_not_an_OdooError_witness :
  fst (Server.search_records Config.defaults "res.partner" None None 80 0 None
         (fun _ => BadBody "Expecting value: line 1 column 1 (char 0)") [])
  = Ret "Unexpected error: Expecting value: line 1 column 1 (char 0)".
Proof.
  exact (proj1 (proj2 (X3_undecodable_body_is_not_an_OdooError Config.defaults
                         anonymous_client
                         (fun _ => BadBody "Expecting value: line 1 column 1 (char 0)")
                         [] "Expecting value: line 1 column 1 (char 0)"
                         (fun _ => eq_refl)))
               "res.partner" None None 80 0 None).
Defined.

(** ** The client that is built from the settings *)

Lemma rstrip_slash_split (s : string) :
  exists n, s = PyString.rstrip_slash s ++ slashes n
            /\ last_char (PyString.rstrip_slash s) <> Some "/"%char.
Proof.
  induction s as [| c rest (n & Hsplit & Hlast)].
  - exists 0%nat. split; [reflexivity | discriminate].
  - simpl. destruct (PyString.rstrip_slash rest) as [| a r] eqn:E.
    + simpl in Hsplit. destruct (Ascii.eqb_spec c "/"%char) as [-> | Hc].
      * exists (S n). simpl. split; [now rewrite <- Hsplit | discriminate].
      * exists n. simpl. split; [now rewrite <- Hsplit |].
        intros H. injection H as ->. now apply Hc.
    + exists n. split.
      * simpl. simpl in Hsplit. now rewrite <- Hsplit.
      * exact Hlast.
Qed.

(** X4: the URL a client keeps never ends with a slash, and the URL it was
    given is the one it keeps followed by slashes only; so the address of a
    request has a single slash before [mcp] however the base URL was
    written. *)
Theorem X4_client_url_has_no_trailing_slash (settings : Config.Settings)
    (url db api_key user password : option string) (timeout : Z) :
  let self := OdooClient.__init__ settings url db api_key user password timeout in
  let given := match OdooClient.opt_or url (Some (Config.url settings)) with
               | Some u => u
               | None => ""
               end in
  last_char (OdooClient.url self) <> Some "/"%char
  /\ (exists n, given = OdooClient.url self ++ slashes n)
  /\ forall endpoint params,
       req_url (request_of self endpoint params)
       = OdooClient.url self ++ "/mcp/" ++ endpoint.
Proof.
  intros self given. subst self given. simpl OdooClient.url.
  destruct (rstrip_slash_split
              (match OdooClient.opt_or url (Some (Config.url settings)) with
               | Some u => u
               | None => ""
               end)) as (n & Hsplit & Hlast).
  split; [exact Hlast | split; [now exists n | reflexivity]].
Qed.

(** X5: the process-wide client takes its URL (without trailing slashes),
    database, API key, user and password from the settings, but not its
    timeout: that is 30 seconds whatever the settings say. *)
Theorem X5_global_client_ignores_configured_timeout (settings : Config.Settings) :
  let self := OdooClient.get_client settings in
  OdooClient.url self = PyString.rstrip_slash (Config.url settings)
  /\ OdooClient.db self = Config.db settings
  /\ OdooClient.api_key self = Config.api_key settings
  /\ OdooClient.user self = Config.user settings
  /\ OdooClient.password self = Config.password settings
  /\ OdooClient.timeout self = 30
  /\ forall other,
       OdooClient.get_client
         (Config.MkSettings (Config.url settings) (Config.db settings)
            (Config.api_key settings) (Config.user settings)
            (Config.password settings) (Config.mcp_transport settings)
            (Config.mcp_host settings) (Config.mcp_port settings)
            (Config.max_records settings) other)
       = self.
Proof.
  intros self. subst self. unfold OdooClient.get_client, OdooClient.__init__.
  simpl. repeat split.
Qed.

(** X6: [can_connect] tells exactly whether the process-wide client adds
    anything to a request: it holds when some authentication field is
    injected, and when it fails the parameters go out as the caller gave
    them. *)
Theorem X6_can_connect_iff_authentication_is_sent (settings : Config.Settings) :
  let self := OdooClient.get_client settings in
  (Config.can_connect settings = true <->
   OdooClient.add_authentication self [] <> [])
  /\ (Config.can_connect settings = false ->
      forall params, OdooClient.add_authentication self params = params).
Proof.
  intros self. subst self.
  unfold Config.can_connect, Config.has_api_key, Config.has_credentials,
    OdooClient.add_authentication.
  replace (OdooClient.api_key (OdooClient.get_client settings))
    with (Config.api_key settings) by reflexivity.
  replace (OdooClient.user (OdooClient.get_client settings))
    with (Config.user settings) by reflexivity.
  replace (OdooClient.password (OdooClient.get_client settings))
    with (Config.password settings) by reflexivity.
  destruct (Config.opt_truthy (Config.api_key settings)); simpl.
  - split; [split; [intros _ H; discriminate H | reflexivity]
           | intros H; discriminate H].
  - destruct (Config.opt_truthy (Config.user settings)
              && Config.opt_truthy (Config.password settings)); simpl.
    + split; [split; [intros _ H; discriminate H | reflexivity]
             | intros H; discriminate H].
    + split; [split; [intros H; discriminate H | intros H; now contradiction H]
             | reflexivity].
Qed.

(** X6 at settings that hold a user but no password. *)
Lemma X6_can_connect_iff_authentication_is_sent_witness :
  let settings := Config.MkSettings "http://odoo/" None None (Some "admin") None
                    "stdio" "localhost" 8000 100 30 in
  Config.can_connect settings = false
  /\ OdooClient.add_authentication (OdooClient.get_client settings)
       [("model", PStr "res.partner")]
     = [("model", PStr "res.partner")].
Proof.
  intros settings. split; [reflexivity |].
  exact (proj2 (X6_can_connect_iff_authentication_is_sent settings) eq_refl
               [("model", PStr "res.partner")]).
Defined.

(** ** The parameters stay a mapping *)

Lemma mem_in_keys (k : string) (d : dict) :
  Dict.mem k d = true <-> In k (Dict.keys d).
Proof.
  unfold Dict.mem. induction d as [| [k' v] d IH]; simpl.
  - split; [discriminate | contradiction].
  - destruct (String.eqb_spec k' k) as [-> | Hne].
    + split; [now left | reflexivity].
    + rewrite IH. split; [now right | intros [H | H]; [contradiction | exact H]].
Qed.

Lemma keys_set (k : string) (v : pyval) (d : dict) :
  Dict.keys (Dict.set k v d)
  = if Dict.mem k d then Dict.keys d else (Dict.keys d ++ [k])%list.
Proof.
  unfold Dict.mem. induction d as [| [k' v'] d IH]; simpl; [reflexivity |].
  destruct (String.eqb_spec k' k) as [-> | Hne]; simpl; [reflexivity |].
  rewrite IH. now destruct (Dict.lookup k d).
Qed.

Lemma NoDup_snoc (l : list string) (k : string) :
  NoDup l -> ~ In k l -> NoDup (l ++ [k]).
Proof.
  induction l as [| a l IH]; simpl; intros Hnd Hin.
  - constructor; [intros [] | constructor].
  - inversion Hnd as [| ? ? Ha Hl]; subst. constructor.
    + intros H. apply in_app_or in H. destruct H as [H | [H | []]].
      * now apply Ha.
      * apply Hin. now left.
    + apply IH; [exact Hl | intros H; apply Hin; now right].
Qed.

Lemma set_keeps_dict (k : string) (v : pyval) (d : dict) :
  NoDup (Dict.keys d) ->
  NoDup (Dict.keys (Dict.set k v d))
  /\ exists extra, Dict.keys (Dict.set k v d) = (Dict.keys d ++ extra)%list.
Proof.
  intros Hnd. rewrite keys_set. destruct (Dict.mem k d) eqn:E.
  - split; [exact Hnd | exists []; now rewrite app_nil_r].
  - split; [| now exists [k]].
    apply NoDup_snoc; [exact Hnd |]. intros H. apply mem_in_keys in H. congruence.
Qed.

(** X7: adding the authentication keeps the parameters a mapping: when the
    caller's keys are distinct, so are the keys that go out; the caller's
    keys keep their order and come first, an injected key that the caller
    did not use being appended; and at most two keys are added. *)
Theorem X7_authentication_keeps_parameters_a_mapping (self : OdooClient.t)
    (params : dict) :
  NoDup (Dict.keys params) ->
  let sent := OdooClient.add_authentication self params in
  NoDup (Dict.keys sent)
  /\ (exists extra, Dict.keys sent = (Dict.keys params ++ extra)%list)
  /\ (length params <= length sent <= length params + 2)%nat.
Proof.
  intros Hnd sent. subst sent. unfold OdooClient.add_authentication.
  assert (Hlen : forall k v (d : dict),
             (length d <= length (Dict.set k v d) <= length d + 1)%nat).
  { intros k v d. induction d as [| [k' v'] d IH]; simpl; [lia |].
    destruct (String.eqb k' k); simpl; lia. }
  destruct (Config.opt_truthy (OdooClient.api_key self)).
  - destruct (set_keeps_dict "api_key" (Py.of_opt_str (OdooClient.api_key self))
                params Hnd) as [H1 H2].
    split; [exact H1 | split; [exact H2 |]].
    specialize (Hlen "api_key" (Py.of_opt_str (OdooClient.api_key self)) params). lia.
  - destruct (Config.opt_truthy (OdooClient.user self)
              && Config.opt_truthy (OdooClient.password self)).
    + destruct (set_keeps_dict "user" (Py.of_opt_str (OdooClient.user self))
                  params Hnd) as [H1 [e1 H2]].
      destruct (set_keeps_dict "password" (Py.of_opt_str (OdooClient.password self))
                  _ H1) as [H3 [e2 H4]].
      split; [exact H3 | split].
      * exists (e1 ++ e2)%list. now rewrite H4, H2, app_assoc.
      * pose proof (Hlen "user" (Py.of_opt_str (OdooClient.user self)) params).
        pose proof (Hlen "password" (Py.of_opt_str (OdooClient.password self))
                      (Dict.set "user" (Py.of_opt_str (OdooClient.user self)) params)).
        lia.
    + split; [exact Hnd | split; [exists []; now rewrite app_nil_r | lia]].
Qed.

(** X7 at the parameters of a read under a profile with credentials. *)
Lemma X7_authentication_keeps_parameters_a_mapping_witness :
  NoDup (Dict.keys [("model", PStr "res.partner"); ("record_id", PInt 7)])
  /\ NoDup (Dict.keys (OdooClient.add_authentication login_client
                         [("model", PStr "res.partner"); ("record_id", PInt 7)])).
Proof.
  assert (H : NoDup (Dict.keys [("model", PStr "res.partner"); ("record_id", PInt 7)])).
  { repeat constructor; simpl; intuition discriminate. }
  split; [exact H |].
  exact (proj1 (X7_authentication_keeps_parameters_a_mapping login_client _ H)).
Defined.

(** ** What the operations make of a successful reply *)

Lemma data_get_present (r data : dict) (key : string) (default v : pyval) :
  Dict.lookup "data" r = Some (PDict data) ->
  Dict.lookup key data = Some v ->
  OdooClient.data_get (PDict r) key default = Ret v.
Proof.
  intros Hdata Hkey. unfold OdooClient.data_get. simpl.
  rewrite get_lookup, Hdata. simpl. now rewrite get_lookup, Hkey.
Qed.

(** X8: from a successful reply whose [result.data] holds the operation's
    key, the operation returns the value under that key as it is, whatever
    its type: [models], [fields], [records], [record], [count], [id] and
    [result] for the seven operations that project. *)
Theorem X8_operations_return_their_sub_key (top r data : dict) :
  Dict.lookup "error" top = None ->
  Dict.lookup "result" top = Some (PDict r) ->
  Py.truthy (Dict.get "error" PNone r) = false ->
  Dict.lookup "data" r = Some (PDict data) ->
  forall (self : OdooClient.t) (be : backend) (log : list request),
    (forall q, be q = Body (PDict top)) ->
    forall (v : pyval) (model method : string)
           (domain fields ids args : option (list pyval))
           (limit offset id : Z) (order : option string) (values : dict)
           (kwargs : option dict),
      (Dict.lookup "models" data = Some v ->
       fst (OdooClient.list_models self be log) = Ret v)
      /\ (Dict.lookup "fields" data = Some v ->
          fst (OdooClient.get_fields self model be log) = Ret v)
      /\ (Dict.lookup "records" data = Some v ->
          fst (OdooClient.search self model domain fields limit offset order be log)
          = Ret v)
      /\ (Dict.lookup "record" data = Some v ->
          fst (OdooClient.read self model id fields be log) = Ret v)
      /\ (Dict.lookup "count" data = Some v ->
          fst (OdooClient.count self model domain be log) = Ret v)
      /\ (Dict.lookup "id" data = Some v ->
          fst (OdooClient.create self model values be log) = Ret v)
      /\ (Dict.lookup "result" data = Some v ->
          fst (OdooClient.execute self model method ids args kwargs be log) = Ret v).
Proof.
  intros Herr Hres Hflag Hdata self be log Hbe v model method domain fields ids args
         limit offset id order values kwargs.
  unfold OdooClient.list_models, OdooClient.get_fields, OdooClient.search,
    OdooClient.read, OdooClient.count, OdooClient.create, OdooClient.execute,
    OdooClient.checked.
  rewrite !bind_request, !Hbe. simpl OdooClient.settle.
  rewrite (read_reply_result top (PDict r) Herr Hres). simpl res_bind.
  rewrite (raise_if_error_clean r Hflag). simpl res_bind.
  repeat split; intros Hkey; now rewrite (data_get_present r data _ _ v Hdata Hkey).
Qed.

(** X8 at the count reply of the specification's example. *)
Lemma X8_operations_return_their_sub_key_witness :
  fst (OdooClient.count anonymous_client "res.partner" None
         (fun _ => Body (PDict [("result", PDict [("data", PDict [("count", PInt 7)])])]))
         [])
  = Ret (PInt 7).
Proof.
  exact (proj1 (proj2 (proj2 (proj2 (proj2
    (X8_operations_return_their_sub_key
       [("result", PDict [("data", PDict [("count", PInt 7)])])]
       [("data", PDict [("count", PInt 7)])] [("count", PInt 7)]
       eq_refl eq_refl eq_refl eq_refl anonymous_client
       (fun _ => Body (PDict [("result", PDict [("data", PDict [("count", PInt 7)])])]))
       [] (fun _ => eq_refl) (PInt 7) "res.partner" "" None None None None 0 0 0 None
       [] None))))) eq_refl).
Defined.

(** X9: [write] and [unlink] look at the soft-error flag only: for every
    result mapping without a truthy flag they return [True], whatever the
    rest of the result says. *)
Theorem X9_write_and_unlink_return_true (top r : dict) :
  Dict.lookup "error" top = None ->
  Dict.lookup "result" top = Some (PDict r) ->
  Py.truthy (Dict.get "error" PNone r) = false ->
  forall (self : OdooClient.t) (be : backend) (log : list request),
    (forall q, be q = Body (PDict top)) ->
    forall (model : string) (id : Z) (values : dict),
      fst (OdooClient.write self model id values be log) = Ret true
      /\ fst (OdooClient.unlink self model id be log) = Ret true.
Proof.
  intros Herr Hres Hflag self be log Hbe model id values.
  unfold OdooClient.write, OdooClient.unlink.
  rewrite !bind_request, !Hbe. simpl OdooClient.settle.
  rewrite (read_reply_result top (PDict r) Herr Hres). simpl res_bind.
  rewrite (raise_if_error_clean r Hflag). split; reflexivity.
Qed.

(** X9 at a result that reports no success and nothing written. *)
Lemma X9_write_and_unlink_return_true_witness :
  let r := [("error", PBool false);
            ("data", PDict [("success", PBool false); ("updated", PInt 0)])] in
  fst (OdooClient.write anonymous_client "res.partner" 7 [("name", PStr "x")]
         (fun _ => Body (PDict [("result", PDict r)])) [])
  = Ret true.
Proof.
  intros r.
  exact (proj1 (X9_write_and_unlink_return_true [("result", PDict r)] r
                  eq_refl eq_refl eq_refl anonymous_client
                  (fun _ => Body (PDict [("result", PDict r)])) []
                  (fun _ => eq_refl) "res.partner" 7 [("name", PStr "x")])).
Defined.

(** ** Replies of the wrong shape *)

Lemma read_reply_not_a_mapping (v : pyval) :
  is_dict v = false ->
  exists e, OdooClient.read_reply v = Raise e /\ forall msg, e <> OdooError msg.
Proof.
  intros H. destruct v as [| b | n | f | s | items | d]; try discriminate H;
    unfold OdooClient.read_reply; simpl.
  - eexists. split; [reflexivity | discriminate].
  - eexists. split; [reflexivity | discriminate].
  - eexists. split; [reflexivity | discriminate].
  - eexists. split; [reflexivity | discriminate].
  - destruct (PyString.contains "error" s); simpl;
      eexists; (split; [reflexivity | discriminate]).
  - destruct (existsb _ items); simpl;
      eexists; (split; [reflexivity | discriminate]).
Qed.

(** X10: a reply that decodes to something else than a mapping (a list, a
    string, a number, [null]) never gives a result: every operation raises
    one and the same built-in exception, which is not an [OdooError], so
    that the [except OdooError] of the tools does not catch it. *)
Theorem X10_reply_that_is_no_mapping_raises (v : pyval) :
  is_dict v = false ->
  exists e,
    (forall msg, e <> OdooError msg)
    /\ forall (self : OdooClient.t) (be : backend) (log : list request),
         (forall q, be q = Body v) -> all_operations_raise self be log e.
Proof.
  intros H. destruct (read_reply_not_a_mapping v H) as (e & He & Hother).
  exists e. split; [exact Hother |].
  intros self be log Hbe. apply settle_raise_all. intros q. now rewrite Hbe.
Qed.

(** X10 at a reply that is a JSON list. *)
Lemma X10_reply_that_is_no_mapping_raises_witness :
  is_dict (PList [PInt 1]) = false
  /\ exists e,
       (forall msg, e <> OdooError msg)
       /\ fst (OdooClient.count anonymous_client "res.partner" None
                 (fun _ => Body (PList [PInt 1])) []) = Raise e.
Proof.
  split; [reflexivity |].
  destruct (X10_reply_that_is_no_mapping_raises (PList [PInt 1]) eq_refl)
    as (e & Hother & Hall).
  exists e. split; [exact Hother |].
  exact (proj1 (proj2 (proj2 (proj2 (proj2 (proj2
    (Hall anonymous_client (fun _ => Body (PList [PInt 1])) [] (fun _ => eq_refl)
       "res.partner" "" None None None None 0 0 0 None [] None))))))).
Defined.

(** X11: when [result] is there but is not a mapping, the nine operations
    that check the soft-error flag raise [AttributeError] on it, while
    [get_server_info] returns it as it is. *)
Theorem X11_result_that_is_no_mapping (top : dict) (v : pyval) :
  Dict.lookup "error" top = None ->
  Dict.lookup "result" top = Some v ->
  is_dict v = false ->
  forall (self : OdooClient.t) (be : backend) (log : list request),
    (forall q, be q = Body (PDict top)) ->
    forall (model method : string) (domain fields ids args : option (list pyval))
           (limit offset id : Z) (order : option string) (values : dict)
           (kwargs : option dict),
      let e := AttributeError ("'" ++ Py.type_name v
                               ++ "' object has no attribute 'get'") in
      fst (OdooClient.list_models self be log) = Raise e
      /\ fst (OdooClient.get_fields self model be log) = Raise e
      /\ fst (OdooClient.search self model domain fields limit offset order be log)
         = Raise e
      /\ fst (OdooClient.read self model id fields be log) = Raise e
      /\ fst (OdooClient.count self model domain be log) = Raise e
      /\ fst (OdooClient.create self model values be log) = Raise e
      /\ fst (OdooClient.write self model id values be log) = Raise e
      /\ fst (OdooClient.unlink self model id be log) = Raise e
      /\ fst (OdooClient.execute self model method ids args kwargs be log) = Raise e
      /\ fst (OdooClient.get_server_info self be log) = Ret v.
Proof.
  intros Herr Hres Hv self be log Hbe model method domain fields ids args limit
         offset id order values kwargs e.
  unfold OdooClient.get_server_info, OdooClient.list_models, OdooClient.get_fields,
    OdooClient.search, OdooClient.read, OdooClient.count, OdooClient.create,
    OdooClient.write, OdooClient.unlink, OdooClient.execute, OdooClient.checked.
  rewrite request_run, !bind_request, !Hbe. simpl OdooClient.settle.
  rewrite (read_reply_result top v Herr Hres). simpl res_bind.
  assert (Hraise : OdooClient.raise_if_error v = Raise e).
  { destruct v; try discriminate Hv; reflexivity. }
  rewrite Hraise. repeat split.
Qed.

(** X11 at a reply whose [result] is [null]. *)
Lemma X11_result_that_is_no_mapping_witness :
  fst (OdooClient.search anonymous_client "res.partner" None None 80 0 None
         (fun _ => Body (PDict [("result", PNone)])) [])
  = Raise (AttributeError "'NoneType' object has no attribute 'get'").
Proof.
  exact (proj1 (proj2 (proj2
    (X11_result_that_is_no_mapping [("result", PNone)] PNone eq_refl eq_refl eq_refl
       anonymous_client (fun _ => Body (PDict [("result", PNone)])) []
       (fun _ => eq_refl) "res.partner" "" None None None None 80 0 0 None [] None)))).
Defined.

(** X12: when [result.data] is there but is not a mapping, the seven
    operations that project a part of it raise [AttributeError], while
    [write] and [unlink], which do not read it, return [True]. *)
Theorem X12_data_that_is_no_mapping (top r : dict) (data : pyval) :
  Dict.lookup "error" top = None ->
  Dict.lookup "result" top = Some (PDict r) ->
  Py.truthy (Dict.get "error" PNone r) = false ->
  Dict.lookup "data" r = Some data ->
  is_dict data = false ->
  forall (self : OdooClient.t) (be : backend) (log : list request),
    (forall q, be q = Body (PDict top)) ->
    forall (model method : string) (domain fields ids args : option (list pyval))
           (limit offset id : Z) (order : option string) (values : dict)
           (kwargs : option dict),
      let e := AttributeError ("'" ++ Py.type_name data
                               ++ "' object has no attribute 'get'") in
      fst (OdooClient.list_models self be log) = Raise e
      /\ fst (OdooClient.get_fields self model be log) = Raise e
      /\ fst (OdooClient.search self model domain fields limit offset order be log)
         = Raise e
      /\ fst (OdooClient.read self model id fields be log) = Raise e
      /\ fst (OdooClient.count self model domain be log) = Raise e
      /\ fst (OdooClient.create self model values be log) = Raise e
      /\ fst (OdooClient.execute self model method ids args kwargs be log) = Raise e
      /\ fst (OdooClient.write self model id values be log) = Ret true
      /\ fst (OdooClient.unlink self model id be log) = Ret true.
Proof.
  intros Herr Hres Hflag Hdata Hd self be log Hbe model method domain fields ids args
         limit offset id order values kwargs e.
  unfold OdooClient.list_models, OdooClient.get_fields,
    OdooClient.search, OdooClient.read, OdooClient.count, OdooClient.create,
    OdooClient.write, OdooClient.unlink, OdooClient.execute, OdooClient.checked.
  rewrite !bind_request, !Hbe. simpl OdooClient.settle.
  rewrite (read_reply_result top (PDict r) Herr Hres). simpl res_bind.
  rewrite (raise_if_error_clean r Hflag). simpl res_bind.
  assert (Hget : forall key default,
             OdooClient.data_get (PDict r) key default = Raise e).
  { intros key default. unfold OdooClient.data_get. simpl.
    rewrite get_lookup, Hdata. destruct data; try discriminate Hd; reflexivity. }
  rewrite !Hget. repeat split.
Qed.

(** X12 at a reply whose [data] is [null]. *)
Lemma X12_data_that_is_no_mapping_witness :
  let r := [("data", PNone)] in
  fst (OdooClient.search anonymous_client "res.partner" None None 80 0 None
         (fun _ => Body (PDict [("result", PDict r)])) [])
  = Raise (AttributeError "'NoneType' object has no attribute 'get'").
Proof.
  intros r.
  exact (proj1 (proj2 (proj2
    (X12_data_that_is_no_mapping [("result", PDict r)] r PNone
       eq_refl eq_refl eq_refl eq_refl eq_refl
       anonymous_client (fun _ => Body (PDict [("result", PDict r)])) []
       (fun _ => eq_refl) "res.partner" "" None None None None 80 0 0 None [] None)))).
Defined.

(** * Further properties of the tools and resources *)

Lemma checked_run (self : OdooClient.t) (endpoint key : string) (params : dict)
    (default : pyval) (be : backend) (log : list request) (top r : dict) :
  (forall q, be q = Body (PDict top)) ->
  Dict.lookup "error" top = None ->
  Dict.lookup "result" top = Some (PDict r) ->
  Py.truthy (Dict.get "error" PNone r) = false ->
  net_bind (OdooClient._request self endpoint params)
    (fun result => OdooClient.checked result key default) be log
  = (OdooClient.data_get (PDict r) key default,
     (log ++ [request_of self endpoint params])%list).
Proof.
  intros Hbe Herr Hres Hflag. unfold OdooClient.checked.
  rewrite bind_request, Hbe. simpl OdooClient.settle.
  rewrite (read_reply_result top (PDict r) Herr Hres). simpl res_bind.
  now rewrite (raise_if_error_clean r Hflag).
Qed.

Lemma except_both_returns {A : Type} (m : Net A) (h1 h2 : string -> A)
    (be : backend) (log : list request) :
  exists a, fst (Server.except_OdooError_Exception m h1 h2 be log) = Ret a.
Proof.
  unfold Server.except_OdooError_Exception.
  destruct (m be log) as [[a | []] log']; eexists; reflexivity.
Qed.

(** X13: [search_records] never raises: whatever the arguments and
    whatever the backend does, it returns a text. *)
Theorem X13_search_records_never_raises (settings : Config.Settings) (model : string)
    (domain fields : option (list pyval)) (limit offset : Z) (order : option string)
    (be : backend) (log : list request) :
  exists text,
    fst (Server.search_records settings model domain fields limit offset order be log)
    = Ret text.
Proof. unfold Server.search_records. apply except_both_returns. Qed.

Lemma except_OdooError_run {A B : Type} (m : Net A) (k : A -> Net B)
    (h : string -> B) (be : backend) (log log' : list request) (a : A) :
  m be log = (Ret a, log') ->
  fst (except_OdooError (net_bind m k) h be log)
  = match fst (k a be log') with
    | Raise (OdooError msg) => Ret (h msg)
    | other => other
    end.
Proof.
  intros H. unfold except_OdooError, net_bind. rewrite H.
  destruct (k a be log') as [[b | []] log'']; reflexivity.
Qed.

Lemma except_both_run {A B : Type} (m : Net A) (k : A -> Net B)
    (h1 h2 : string -> B) (be : backend) (log log' : list request) (a : A) :
  m be log = (Ret a, log') ->
  fst (Server.except_OdooError_Exception (net_bind m k) h1 h2 be log)
  = match fst (k a be log') with
    | Raise (OdooError msg) => Ret (h1 msg)
    | Raise e => Ret (h2 (exn_str e))
    | other => other
    end.
Proof.
  intros H. unfold Server.except_OdooError_Exception, net_bind. rewrite H.
  destruct (k a be log') as [[b | []] log'']; reflexivity.
Qed.

(** X14: when a successful reply has no [data] part for the operation, the
    tools answer with their "nothing found" texts, the count is reported as
    0, and [create_record] reports a success whose identifier is [None]. *)
Theorem X14_empty_answers (settings : Config.Settings) (top r : dict) :
  Dict.lookup "error" top = None ->
  Dict.lookup "result" top = Some (PDict r) ->
  Py.truthy (Dict.get "error" PNone r) = false ->
  forall (be : backend) (log : list request),
    (forall q, be q = Body (PDict top)) ->
    forall (model : string) (domain fields : option (list pyval))
           (limit offset id : Z) (order : option string) (values : dict)
           (filter : list pyval),
      (lacks r "records" = true ->
       fst (Server.search_records settings model domain fields limit offset order
              be log)
       = Ret ("No records found in " ++ model ++ " matching the criteria."))
      /\ (lacks r "record" = true ->
          fst (Server.get_record settings model id fields be log)
          = Ret ("Record " ++ PyString.of_Z id ++ " not found in " ++ model ++ "."))
      /\ (lacks r "records" = true ->
          fst (Server.search_and_read_one settings model filter fields be log)
          = Ret ("No record found in " ++ model ++ " matching "
                 ++ Py.str (PList filter) ++ "."))
      /\ (lacks r "models" = true ->
          fst (Server.list_models settings be log)
          = Ret "No models are currently enabled for MCP access.")
      /\ (lacks r "count" = true ->
          fst (Server.count_records settings model None be log)
          = Ret ("Found 0 records in " ++ model ++ "."))
      /\ (lacks r "id" = true ->
          fst (Server.create_record settings model values be log)
          = Ret ("✅ Successfully created " ++ model ++ " record with ID None.")).
Proof.
  intros Herr Hres Hflag be log Hbe model domain fields limit offset id order values
         filter.
  assert (Hrun : forall self endpoint key params default,
             lacks r key = true ->
             net_bind (OdooClient._request self endpoint params)
               (fun result => OdooClient.checked result key default) be log
             = (Ret default, (log ++ [request_of self endpoint params])%list)).
  { intros self endpoint key params default Hlacks.
    rewrite (checked_run _ _ _ _ _ be log top r Hbe Herr Hres Hflag).
    now rewrite (data_get_missing r _ _ Hlacks). }
  repeat split; intros Hlacks.
  - unfold Server.search_records.
    erewrite except_both_run; [| unfold OdooClient.search; now apply Hrun].
    reflexivity.
  - unfold Server.get_record.
    erewrite except_OdooError_run; [| unfold OdooClient.read; now apply Hrun].
    reflexivity.
  - unfold Server.search_and_read_one.
    erewrite except_OdooError_run; [| unfold OdooClient.search; now apply Hrun].
    reflexivity.
  - unfold Server.list_models.
    erewrite except_OdooError_run; [| unfold OdooClient.list_models; now apply Hrun].
    reflexivity.
  - unfold Server.count_records.
    erewrite except_OdooError_run; [| unfold OdooClient.count; now apply Hrun].
    reflexivity.
  - unfold Server.create_record.
    erewrite except_OdooError_run; [| unfold OdooClient.create; now apply Hrun].
    reflexivity.
Qed.

(** X14 at a reply whose result is the empty mapping. *)
Lemma X14_empty_answers_witness :
  lacks [] "id" = true
  /\ fst (Server.create_record Config.defaults "res.partner" [("name", PStr "x")]
            (fun _ => Body (PDict [("result", PDict [])])) [])
     = Ret "✅ Successfully created res.partner record with ID None.".
Proof.
  split; [reflexivity |].
  exact (proj2 (proj2 (proj2 (proj2 (proj2
    (X14_empty_answers Config.defaults [("result", PDict [])] []
       eq_refl eq_refl eq_refl (fun _ => Body (PDict [("result", PDict [])])) []
       (fun _ => eq_refl) "res.partner" None None 0 0 0 None [("name", PStr "x")]
       []))))) eq_refl).
Defined.

Lemma snd_except_OdooError {A : Type} (m : Net A) (h : string -> A)
    (be : backend) (log : list request) :
  snd (except_OdooError m h be log) = snd (m be log).
Proof.
  unfold except_OdooError. destruct (m be log) as [[a | []] log']; reflexivity.
Qed.

(** X15: [resource_record] reads the identifier before anything is sent: a
    [record_id] that is no integer literal raises the [ValueError] of
    [int()] and no request goes out; one that is sends exactly one [read]
    request, for that identifier and with no field list. *)
Theorem X15_resource_record_checks_the_identifier_first (settings : Config.Settings)
    (model record_id : string) (be : backend) (log : list request) :
  (forall e,
     Server.IntLiteral.parse record_id = Raise e ->
     Server.resource_record settings model record_id be log = (Raise e, log))
  /\ (forall id,
        Server.IntLiteral.parse record_id = Ret id ->
        snd (Server.resource_record settings model record_id be log)
        = (log ++ [request_of (OdooClient.get_client settings) "read"
                     [("model", PStr model); ("record_id", PInt id);
                      ("fields", PNone)]])%list).
Proof.
  split.
  - intros e H. unfold Server.resource_record, net_bind, net_lift. now rewrite H.
  - intros id H. unfold Server.resource_record.
    unfold net_bind at 1. unfold net_lift at 1. rewrite H.
    rewrite snd_net_bind; [| reflexivity].
    unfold OdooClient.read, OdooClient.checked. now rewrite bind_request.
Qed.

(** X15 at an identifier that is a name. *)
Lemma X15_resource_record_checks_the_identifier_first_witness :
  Server.IntLiteral.parse "seven"
  = Raise (ValueError "invalid literal for int() with base 10: 'seven'")
  /\ Server.resource_record Config.defaults "res.partner" "seven"
       (fun _ => Body (PDict [])) []
     = (Raise (ValueError "invalid literal for int() with base 10: 'seven'"), []).
Proof.
  split; [reflexivity |].
  exact (proj1 (X15_resource_record_checks_the_identifier_first Config.defaults
                  "res.partner" "seven" (fun _ => Body (PDict [])) [])
               _ eq_refl).
Defined.

Lemma format_record_no_OdooError (model : string) (record : pyval) (msg : string) :
  Format.format_record model record <> Raise (OdooError msg).
Proof. destruct record; discriminate. Qed.

(** X16: [search_and_read_one] asks for one record from the start, whatever
    the configured maximum, and what it returns for a non-empty list of
    records is the rendering of the first one alone. *)
Theorem X16_search_and_read_one_renders_the_first (settings : Config.Settings)
    (model : string) (filter : list pyval) (fields : option (list pyval))
    (be : backend) (log : list request) :
  snd (Server.search_and_read_one settings model filter fields be log)
  = (log ++ [request_of (OdooClient.get_client settings) "search"
               [("model", PStr model); ("domain", PList filter);
                ("fields", Py.of_opt_list fields); ("limit", PInt 1);
                ("offset", PInt 0); ("order", PNone)]])%list
  /\ forall top r data first rest,
       (forall q, be q = Body (PDict top)) ->
       Dict.lookup "error" top = None ->
       Dict.lookup "result" top = Some (PDict r) ->
       Py.truthy (Dict.get "error" PNone r) = false ->
       Dict.lookup "data" r = Some (PDict data) ->
       Dict.lookup "records" data = Some (PList (first :: rest)) ->
       fst (Server.search_and_read_one settings model filter fields be log)
       = Format.format_record model first.
Proof.
  split.
  - unfold Server.search_and_read_one.
    rewrite snd_except_OdooError, snd_net_bind, search_log.
    + destruct filter; reflexivity.
    + intros a log'. destruct (negb (Py.truthy a)); reflexivity.
  - intros top r data first rest Hbe Herr Hres Hflag Hdata Hrecords.
    unfold Server.search_and_read_one.
    erewrite except_OdooError_run.
    2:{ unfold OdooClient.search.
        rewrite (checked_run _ _ _ _ _ be log top r Hbe Herr Hres Hflag).
        now rewrite (data_get_present r data _ _ _ Hdata Hrecords). }
    simpl. destruct (Format.format_record model first) as [text | e] eqn:E;
      [reflexivity |].
    destruct e; try reflexivity.
    exfalso. exact (format_record_no_OdooError model first msg E).
Qed.

(** X16 at a reply with two records. *)
Lemma X16_search_and_read_one_renders_the_first_witness :
  let data := [("records", PList [PDict [("id", PInt 1); ("name", PStr "A")];
                                  PDict [("id", PInt 2); ("name", PStr "B")]])] in
  let be : backend := fun _ => Body (PDict [("result", PDict [("data", PDict data)])]) in
  fst (Server.search_and_read_one Config.defaults "res.partner" [] None be [])
  = Format.format_record "res.partner" (PDict [("id", PInt 1); ("name", PStr "A")]).
Proof.
  intros data be.
  exact (proj2 (X16_search_and_read_one_renders_the_first Config.defaults
                  "res.partner" [] None be [])
               [("result", PDict [("data", PDict data)])] [("data", PDict data)] data
               _ _ (fun _ => eq_refl) eq_refl eq_refl eq_refl eq_refl eq_refl).
Defined.

(** X17: [get_record_name] asks for [display_name] alone and returns what
    the record holds under it; for a record without it, and so for a record
    that does not exist, it returns the text "<model>,<id>" and no error. *)
Theorem X17_get_record_name_falls_back (settings : Config.Settings) (top r : dict)
    (be : backend) (log : list request) (model : string) (id : Z) :
  (forall q, be q = Body (PDict top)) ->
  Dict.lookup "error" top = None ->
  Dict.lookup "result" top = Some (PDict r) ->
  Py.truthy (Dict.get "error" PNone r) = false ->
  (lacks r "record" = true ->
   fst (Server.get_record_name settings model id be log)
   = Ret (PStr (model ++ "," ++ PyString.of_Z id)))
  /\ (forall data record,
        Dict.lookup "data" r = Some (PDict data) ->
        Dict.lookup "record" data = Some (PDict record) ->
        fst (Server.get_record_name settings model id be log)
        = Ret (match Dict.lookup "display_name" record with
               | Some name => name
               | None => PStr (model ++ "," ++ PyString.of_Z id)
               end))
  /\ snd (Server.get_record_name settings model id be log)
     = (log ++ [request_of (OdooClient.get_client settings) "read"
                  [("model", PStr model); ("record_id", PInt id);
                   ("fields", PList [PStr "display_name"])]])%list.
Proof.
  intros Hbe Herr Hres Hflag. split; [| split].
  - intros Hlacks. unfold Server.get_record_name.
    erewrite except_OdooError_run.
    2:{ unfold OdooClient.read.
        rewrite (checked_run _ _ _ _ _ be log top r Hbe Herr Hres Hflag).
        now rewrite (data_get_missing r _ _ Hlacks). }
    reflexivity.
  - intros data record Hdata Hrecord. unfold Server.get_record_name.
    erewrite except_OdooError_run.
    2:{ unfold OdooClient.read.
        rewrite (checked_run _ _ _ _ _ be log top r Hbe Herr Hres Hflag).
        now rewrite (data_get_present r data _ _ _ Hdata Hrecord). }
    simpl. rewrite get_lookup. now destruct (Dict.lookup "display_name" record).
  - unfold Server.get_record_name.
    rewrite snd_except_OdooError, snd_net_bind; [| reflexivity].
    unfold OdooClient.read, OdooClient.checked. now rewrite bind_request.
Qed.

(** X17 at a record that does not exist. *)
Lemma X17_get_record_name_falls_back_witness :
  lacks [] "record" = true
  /\ fst (Server.get_record_name Config.defaults "res.partner" 42
            (fun _ => Body (PDict [("result", PDict [])])) [])
     = Ret (PStr "res.partner,42").
Proof.
  split; [reflexivity |].
  exact (proj1 (X17_get_record_name_falls_back Config.defaults
                  [("result", PDict [])] [] (fun _ => Body (PDict [("result", PDict [])]))
                  [] "res.partner" 42 (fun _ => eq_refl) eq_refl eq_refl eq_refl)
               eq_refl).
Defined.

(** X18: [update_record] and [delete_record] report a success for every
    reply whose result is a mapping without a truthy error flag, whatever
    else the result says; the update names the keys of the values it was
    given, in their order. *)
Theorem X18_update_and_delete_report_success (settings : Config.Settings)
    (top r : dict) (be : backend) (log : list request) (model : string) (id : Z)
    (values : dict) :
  (forall q, be q = Body (PDict top)) ->
  Dict.lookup "error" top = None ->
  Dict.lookup "result" top = Some (PDict r) ->
  Py.truthy (Dict.get "error" PNone r) = false ->
  fst (Server.update_record settings model id values be log)
  = Ret ("✅ Successfully updated " ++ model ++ " record " ++ PyString.of_Z id
         ++ ". Fields: " ++ PyString.join ", " (map fst values))
  /\ fst (Server.delete_record settings model id be log)
     = Ret ("✅ Successfully deleted " ++ model ++ " record " ++ PyString.of_Z id ++ ".").
Proof.
  intros Hbe Herr Hres Hflag.
  assert (Hrun : forall self endpoint params,
             net_bind (OdooClient._request self endpoint params)
               (fun result =>
                  net_lift (_ <- OdooClient.raise_if_error result ;; Ret true)%res)
               be log
             = (Ret true, (log ++ [request_of self endpoint params])%list)).
  { intros self endpoint params. rewrite bind_request, Hbe. simpl OdooClient.settle.
    rewrite (read_reply_result top (PDict r) Herr Hres). simpl res_bind.
    now rewrite (raise_if_error_clean r Hflag). }
  split.
  - unfold Server.update_record.
    erewrite except_OdooError_run; [| unfold OdooClient.write; apply Hrun].
    reflexivity.
  - unfold Server.delete_record.
    erewrite except_OdooError_run; [| unfold OdooClient.unlink; apply Hrun].
    reflexivity.
Qed.

(** X18 at a result that says nothing was deleted. *)
Lemma X18_update_and_delete_report_success_witness :
  let r := [("data", PDict [("deleted", PBool false)])] in
  fst (Server.delete_record Config.defaults "res.partner" 7
         (fun _ => Body (PDict [("result", PDict r)])) [])
  = Ret "✅ Successfully deleted res.partner record 7.".
Proof.
  intros r.
  exact (proj2 (X18_update_and_delete_report_success Config.defaults
                  [("result", PDict r)] r (fun _ => Body (PDict [("result", PDict r)]))
                  [] "res.partner" 7 [] (fun _ => eq_refl) eq_refl eq_refl eq_refl)).
Defined.

(** * Further properties of the formatters *)

Lemma all_records_of_mappings (recs : list pyval) :
  Forall (fun v => is_dict v = true) recs ->
  exists lines, Format.all_records recs = Ret lines.
Proof.
  induction 1 as [| v recs Hv _ (lines & IH)]; simpl.
  - now exists [].
  - destruct v; try discriminate Hv. simpl. rewrite IH. simpl. eexists. reflexivity.
Qed.

Lemma all_records_stops (before after : list pyval) (v : pyval) :
  Forall (fun v => is_dict v = true) before ->
  is_dict v = false ->
  Format.all_records (before ++ v :: after) = Raise (Py.no_attribute v "get").
Proof.
  intros Hbefore Hv. induction Hbefore as [| u before Hu _ IH]; simpl.
  - destruct v; try discriminate Hv; reflexivity.
  - destruct u; try discriminate Hu. simpl. now rewrite IH.
Qed.

(** X19: [format_records] renders a list of records exactly when every
    record is a mapping; otherwise it raises [AttributeError] for the first
    record that is not one, and no text at all is produced. *)
Theorem X19_format_records_needs_mappings (model : string) (recs : list pyval) :
  (Forall (fun v => is_dict v = true) recs ->
   exists text, Format.format_records model (PList recs) = Ret text)
  /\ (forall before v after,
        recs = (before ++ v :: after)%list ->
        Forall (fun v => is_dict v = true) before ->
        is_dict v = false ->
        Format.format_records model (PList recs)
        = Raise (AttributeError ("'" ++ Py.type_name v
                                 ++ "' object has no attribute 'get'"))).
Proof.
  split.
  - intros Hall. unfold Format.format_records.
    destruct (negb (Py.truthy (PList recs))); [eexists; reflexivity |].
    simpl. destruct (all_records_of_mappings recs Hall) as (lines & ->).
    simpl. eexists. reflexivity.
  - intros before v after -> Hbefore Hv. unfold Format.format_records.
    replace (negb (Py.truthy (PList (before ++ v :: after)))) with false
      by (now destruct before).
    simpl. now rewrite (all_records_stops before after v Hbefore Hv).
Qed.

(** X19 at a list whose second record is an identifier. *)
Lemma X19_format_records_needs_mappings_witness :
  Format.format_records "res.partner" (PList [PDict [("id", PInt 1)]; PInt 2])
  = Raise (AttributeError "'int' object has no attribute 'get'").
Proof.
  exact (proj2 (X19_format_records_needs_mappings "res.partner"
                  [PDict [("id", PInt 1)]; PInt 2])
               [PDict [("id", PInt 1)]] (PInt 2) [] eq_refl
               ltac:(repeat constructor) eq_refl).
Defined.

Lemma lookup_filter (f : string * pyval -> bool) (k : string) (d : dict) :
  (forall v, f (k, v) = true) ->
  Dict.lookup k (filter f d) = Dict.lookup k d.
Proof.
  intros Hk. induction d as [| [k' v] d IH]; simpl; [reflexivity |].
  destruct (String.eqb_spec k' k) as [-> | Hne].
  - rewrite Hk. simpl. now rewrite String.eqb_refl.
  - destruct (f (k', v)); simpl; [| exact IH].
    destruct (String.eqb_spec k' k); [contradiction | exact IH].
Qed.

Lemma place_dropped (g : Format.groups) (item : string * pyval) :
  kept item = false -> Format.place g item = g.
Proof.
  destruct item as [key value]. unfold kept. simpl fst. simpl snd.
  intros H. apply orb_false_elim in H. destruct H as [_ H].
  apply negb_false_iff in H. unfold Format.place. rewrite H.
  now destruct (Format.key_in key _).
Qed.

Lemma field_line_dropped (item : string * pyval) :
  kept item = false -> Format.field_line item = None.
Proof.
  destruct item as [key value]. unfold kept. simpl fst. simpl snd.
  intros H. apply orb_false_elim in H. destruct H as [_ H].
  apply negb_false_iff in H. unfold Format.field_line. rewrite H.
  now destruct (Format.key_in key _).
Qed.

Lemma fold_place_drop_blank (d : dict) (g : Format.groups) :
  fold_left Format.place (drop_blank d) g = fold_left Format.place d g.
Proof.
  revert g. induction d as [| item d IH]; intros g; [reflexivity |].
  unfold drop_blank in *. simpl. destruct (kept item) eqn:E; simpl.
  - apply IH.
  - rewrite (place_dropped g item E). apply IH.
Qed.

Lemma field_lines_drop_blank (d : dict) :
  Format.field_lines (drop_blank d) = Format.field_lines d.
Proof.
  induction d as [| item d IH]; [reflexivity |].
  unfold drop_blank in *. simpl. destruct (kept item) eqn:E; simpl.
  - now rewrite IH.
  - now rewrite (field_line_dropped item E).
Qed.

(** X20: fields whose value is [None], the empty string or [False] leave no
    trace: taking them out of a record, except under the keys [id],
    [display_name] and [name] that make the heading, changes nothing in
    what either formatter produces. *)
Theorem X20_blank_fields_leave_no_trace (model : string) (d : dict) :
  Format.format_record model (PDict (drop_blank d))
  = Format.format_record model (PDict d)
  /\ forall before after,
       Format.format_records model
         (PList (before ++ PDict (drop_blank d) :: after))
       = Format.format_records model (PList (before ++ PDict d :: after)).
Proof.
  assert (Hget : forall k default,
             Format.key_in k ["id"; "display_name"; "name"] = true ->
             Dict.get k default (drop_blank d) = Dict.get k default d).
  { intros k default Hk. rewrite !get_lookup. unfold drop_blank.
    rewrite lookup_filter; [reflexivity |].
    intros v. unfold kept. simpl fst. now rewrite Hk. }
  assert (Hname : forall rec_id,
             Format.heading_name (drop_blank d) rec_id = Format.heading_name d rec_id).
  { intros rec_id. unfold Format.heading_name. now rewrite !Hget. }
  split.
  - unfold Format.format_record, Format.record_lines.
    now rewrite fold_place_drop_blank, Hname, !Hget.
  - intros before after.
    assert (Hone : Format.one_record (PDict (drop_blank d))
                   = Format.one_record (PDict d)).
    { unfold Format.one_record.
      now rewrite field_lines_drop_blank, Hname, !Hget. }
    assert (Hall : Format.all_records (before ++ PDict (drop_blank d) :: after)
                   = Format.all_records (before ++ PDict d :: after)).
    { assert (Hcons : forall rec rest,
                 Format.all_records (rec :: rest)
                 = res_bind (Format.one_record rec)
                     (fun here => res_bind (Format.all_records rest)
                                    (fun after => Ret (List.app here after))))
        by reflexivity.
      induction before as [| b before IH].
      - simpl List.app. now rewrite !Hcons, Hone.
      - simpl List.app. now rewrite !(Hcons b), IH. }
    unfold Format.format_records.
    replace (negb (Py.truthy (PList (before ++ PDict (drop_blank d) :: after))))
      with false by (now destruct before).
    replace (negb (Py.truthy (PList (before ++ PDict d :: after))))
      with false by (now destruct before).
    simpl. rewrite Hall. now rewrite !length_app.
Qed.

Lemma many2one_shape (v first second : pyval) :
  Format.many2one v = Some (first, second) ->
  v = PList [first; second] /\ Py.is_int first = true.
Proof.
  destruct v as [| | | | | [| a [| b [| c rest]]] |]; simpl; try discriminate.
  destruct (Py.is_int a) eqn:E; [| discriminate].
  intros H. injection H as <- <-. now split.
Qed.

Lemma place_step (g : Format.groups) (item : string * pyval) :
  Format.place g item
  = Format.MkGroups
      (Format.basic_fields g ++ if in_basic item then [item] else [])%list
      (Format.relation_fields g
       ++ if in_relation item then [relation_entry item] else [])%list
      (Format.other_fields g ++ if in_other item then [other_entry item] else [])%list.
Proof.
  destruct g as [basic relation other]. destruct item as [key value].
  unfold in_basic, in_relation, in_other, shown_in_record, record_reserved,
    is_many2one, relation_entry, other_entry, Format.place.
  cbn [fst snd Format.basic_fields Format.relation_fields Format.other_fields].
  destruct (Format.key_in key ["id"; "display_name"; "__last_update"]).
  { cbn. now rewrite !app_nil_r. }
  destruct (Py.is_blank value) eqn:Hblank.
  { cbn. now rewrite !app_nil_r. }
  destruct (Format.many2one value) as [[first second] |] eqn:Hm.
  - apply many2one_shape in Hm. destruct Hm as [-> _].
    cbn. now rewrite !app_nil_r.
  - destruct value as [| b | n | f | s | [| x items] | entries];
      cbn; rewrite ?app_nil_r; reflexivity.
Qed.

Lemma fold_place_groups (d : dict) (g : Format.groups) :
  fold_left Format.place d g
  = Format.MkGroups
      (Format.basic_fields g ++ filter in_basic d)%list
      (Format.relation_fields g ++ map relation_entry (filter in_relation d))%list
      (Format.other_fields g ++ map other_entry (filter in_other d))%list.
Proof.
  revert g. induction d as [| item d IH]; intros g.
  - destruct g. cbn. now rewrite !app_nil_r.
  - cbn [fold_left filter]. rewrite IH, place_step.
    cbn [Format.basic_fields Format.relation_fields Format.other_fields].
    destruct (in_basic item), (in_relation item), (in_other item);
      cbn [map]; rewrite <- ?app_assoc; reflexivity.
Qed.

Lemma field_line_when_shown (item : string * pyval) :
  Format.field_line item
  = if shown_in_records item then Some (records_line item) else None.
Proof.
  destruct item as [key value].
  unfold shown_in_records, records_line, records_reserved, Format.field_line.
  cbn [fst snd].
  destruct (Format.key_in key ["id"; "display_name"; "name"; "__last_update"]);
    [reflexivity |].
  destruct (Py.is_blank value); [reflexivity |].
  cbn [negb andb].
  destruct (Format.many2one value) as [[first second] |]; [reflexivity |].
  now destruct value.
Qed.

Lemma field_lines_shown (d : dict) :
  Format.field_lines d = map records_line (filter shown_in_records d).
Proof.
  induction d as [| item d IH]; [reflexivity |].
  cbn [Format.field_lines filter]. rewrite field_line_when_shown.
  destruct (shown_in_records item); cbn [map]; now rewrite IH.
Qed.

(** X21: each field is rendered once or not at all, in the order of the
    record.  [format_record] puts in its basic group exactly the shown
    scalar fields, as they are; in its relation group the shown fields that
    are a two-element list with an integer first, as "second (ID: first)";
    in its other group the remaining shown fields, a list as its count and
    preview and anything else as its text.  A field is shown when its key is
    not reserved and its value is neither blank nor an empty list, and a
    shown field is in exactly one group.  The lines of [format_record] are
    the heading and then the bullets of the three groups, each group under
    its title when it is not empty.  [format_records] writes exactly one
    line for each field that is not under a reserved key and not blank, an
    empty list included, between the heading of the record and an empty
    line. *)
Theorem X21_each_field_is_rendered_at_most_once (d : dict) :
  let g := fold_left Format.place d (Format.MkGroups [] [] []) in
  Format.basic_fields g = filter in_basic d
  /\ Format.relation_fields g = map relation_entry (filter in_relation d)
  /\ Format.other_fields g = map other_entry (filter in_other d)
  /\ (forall item,
        (Nat.b2n (in_basic item) + Nat.b2n (in_relation item)
         + Nat.b2n (in_other item))%nat
        = Nat.b2n (shown_in_record item))
  /\ Format.field_lines d = map records_line (filter shown_in_records d)
  /\ (forall model,
        let rec_id := Dict.get "id" (PStr "?") d in
        Format.record_lines model d
        = ("# " ++ model ++ ": " ++ Py.str (Format.heading_name d rec_id)
           ++ " (ID: " ++ Py.str rec_id ++ ")" ++ PyString.nl)
          :: List.app
               (Format.section "## Basic Information"
                  (map (fun item => Format.bullet (fst item) (Py.str (snd item)))
                     (filter in_basic d)))
               (List.app
                  (Format.section (PyString.nl ++ "## Related Records")
                     (map (fun item =>
                             Format.bullet (fst item) (snd (relation_entry item)))
                        (filter in_relation d)))
                  (Format.section (PyString.nl ++ "## Other Data")
                     (map (fun item =>
                             Format.bullet (fst item) (snd (other_entry item)))
                        (filter in_other d)))))
  /\ (let rec_id := Dict.get "id" (PStr "?") d in
      Format.one_record (PDict d)
      = Ret (("## " ++ Py.str (Format.heading_name d rec_id)
              ++ " (ID: " ++ Py.str rec_id ++ ")")
             :: List.app (map records_line (filter shown_in_records d)) [""])).
Proof.
  intros g. subst g. rewrite fold_place_groups.
  cbn [Format.basic_fields Format.relation_fields Format.other_fields List.app].
  split; [reflexivity | split; [reflexivity | split; [reflexivity |]]].
  split; [| split; [| split]].
  - intros item. unfold in_basic, in_relation, in_other.
    now destruct (shown_in_record item), (is_many2one (snd item)),
      (Py.is_scalar (snd item)).
  - apply field_lines_shown.
  - intros model. cbv zeta. unfold Format.record_lines.
    rewrite fold_place_groups.
    cbn [Format.basic_fields Format.relation_fields Format.other_fields List.app].
    now rewrite !map_map.
  - cbv zeta. unfold Format.one_record. now rewrite field_lines_shown.
Qed.

(** * The identifier of a record, printed and read back *)

Lemma digits_of_uint (d : Decimal.uint) (acc : Z) (after_digit : bool) :
  d <> Decimal.Nil \/ after_digit = true ->
  Server.IntLiteral.digits (NilEmpty.string_of_uint d) acc after_digit
  = Some (uint_value d acc).
Proof.
  revert acc after_digit.
  induction d as [| d IH | d IH | d IH | d IH | d IH | d IH | d IH | d IH | d IH | d IH];
    intros acc after_digit H;
    try (cbn [NilEmpty.string_of_uint Server.IntLiteral.digits uint_value];
         (change (Server.IntLiteral.digit "0"%char) with (Some 0)
         || change (Server.IntLiteral.digit "1"%char) with (Some 1)
         || change (Server.IntLiteral.digit "2"%char) with (Some 2)
         || change (Server.IntLiteral.digit "3"%char) with (Some 3)
         || change (Server.IntLiteral.digit "4"%char) with (Some 4)
         || change (Server.IntLiteral.digit "5"%char) with (Some 5)
         || change (Server.IntLiteral.digit "6"%char) with (Some 6)
         || change (Server.IntLiteral.digit "7"%char) with (Some 7)
         || change (Server.IntLiteral.digit "8"%char) with (Some 8)
         || change (Server.IntLiteral.digit "9"%char) with (Some 9));
         cbv iota; apply IH; now right).
  simpl. destruct H as [H | ->]; [now contradiction H | reflexivity].
Qed.

Lemma uint_value_pos (d : Decimal.uint) (p : positive) :
  uint_value d (Zpos p) = Zpos (Pos.of_uint_acc d p).
Proof.
  revert p. induction d; intros p; cbn [uint_value Pos.of_uint_acc];
    [reflexivity | ..];
    match goal with
    | |- uint_value _ ?z = Zpos (Pos.of_uint_acc _ ?q) =>
        replace z with (Zpos q) by lia; apply IHd
    end.
Qed.

Lemma uint_value_zero (d : Decimal.uint) :
  uint_value d 0 = Z.of_N (Pos.of_uint d).
Proof.
  induction d; simpl; [reflexivity | exact IHd | ..]; apply uint_value_pos.
Qed.

Lemma rstrip_digits (d : Decimal.uint) :
  Server.IntLiteral.rstrip (NilEmpty.string_of_uint d) = NilEmpty.string_of_uint d.
Proof.
  induction d; [reflexivity | ..];
    cbn [NilEmpty.string_of_uint Server.IntLiteral.rstrip]; rewrite IHd;
    now destruct (NilEmpty.string_of_uint d).
Qed.

Lemma parse_unsigned (d : Decimal.uint) :
  d <> Decimal.Nil ->
  Server.IntLiteral.parse (NilEmpty.string_of_uint d) = Ret (Z.of_N (Pos.of_uint d))
  /\ Server.IntLiteral.parse (String "-" (NilEmpty.string_of_uint d))
     = Ret (- Z.of_N (Pos.of_uint d)).
Proof.
  intros Hd.
  assert (Hdigits : Server.IntLiteral.digits (NilEmpty.string_of_uint d) 0 false
                    = Some (Z.of_N (Pos.of_uint d))).
  { rewrite digits_of_uint by now left. now rewrite uint_value_zero. }
  assert (Hminus : Server.IntLiteral.rstrip (String "-" (NilEmpty.string_of_uint d))
                   = String "-" (NilEmpty.string_of_uint d)).
  { cbn [Server.IntLiteral.rstrip]. rewrite rstrip_digits.
    now destruct (NilEmpty.string_of_uint d). }
  split.
  - unfold Server.IntLiteral.parse. cbv zeta.
    replace (Server.IntLiteral.lstrip (NilEmpty.string_of_uint d))
      with (NilEmpty.string_of_uint d) by (now destruct d).
    rewrite rstrip_digits.
    replace (match NilEmpty.string_of_uint d with
             | String "-" rest =>
                 option_map Z.opp (Server.IntLiteral.digits rest 0 false)
             | String "+" rest => Server.IntLiteral.digits rest 0 false
             | _ => Server.IntLiteral.digits (NilEmpty.string_of_uint d) 0 false
             end)
      with (Server.IntLiteral.digits (NilEmpty.string_of_uint d) 0 false)
      by (now destruct d).
    now rewrite Hdigits.
  - unfold Server.IntLiteral.parse. cbv zeta.
    change (Server.IntLiteral.lstrip (String "-" (NilEmpty.string_of_uint d)))
      with (String "-" (NilEmpty.string_of_uint d)).
    rewrite Hminus. cbv iota beta. now rewrite Hdigits.
Qed.

Lemma parse_of_Z (n : Z) : Server.IntLiteral.parse (PyString.of_Z n) = Ret n.
Proof.
  unfold PyString.of_Z. destruct n as [| p | p]; [reflexivity | |];
    cbn [Z.to_int NilZero.string_of_int];
    unfold NilZero.string_of_uint;
    pose proof (Unsigned.to_uint_nonnil p) as Hnn;
    destruct (parse_unsigned (Pos.to_uint p) Hnn) as [Hpos Hneg];
    rewrite Unsigned.of_to in Hpos, Hneg;
    destruct (Pos.to_uint p) eqn:E; try (now contradiction Hnn);
    assumption.
Qed.

(** X22: an identifier that is printed and read back is the same
    identifier: [int()] of the decimal text of any integer, negative ones
    included, is that integer, so that [resource_record] given that text
    asks for that record. *)
Theorem X22_identifier_round_trip (n : Z) :
  Server.IntLiteral.parse (PyString.of_Z n) = Ret n
  /\ forall settings model be log,
       snd (Server.resource_record settings model (PyString.of_Z n) be log)
       = (log ++ [request_of (OdooClient.get_client settings) "read"
                    [("model", PStr model); ("record_id", PInt n);
                     ("fields", PNone)]])%list.
Proof.
  pose proof (parse_of_Z n) as Hparse.
  split; [exact Hparse |].
  intros settings model be log. unfold Server.resource_record.
  unfold net_bind at 1. unfold net_lift at 1. rewrite Hparse.
  rewrite snd_net_bind; [| reflexivity].
  unfold OdooClient.read, OdooClient.checked. now rewrite bind_request.
Qed.

(** * The list of models and the two ways to a record *)

Lemma model_lines_of_models (ms : list pyval) :
  Forall (fun v => has_model v = true) ms ->
  exists lines, Server.model_lines ms = Ret lines /\ length lines = length ms.
Proof.
  induction 1 as [| v ms Hv _ (lines & IH & Hlen)].
  - now exists [].
  - cbn [Server.model_lines].
    destruct v as [| | | | | | d]; try discriminate Hv.
    unfold has_model, Dict.mem in Hv. unfold Server.model_line.
    destruct (Dict.lookup "model" d) as [name |]; [| discriminate Hv].
    cbn [res_bind]. rewrite IH. cbn [res_bind].
    eexists. split; [reflexivity |]. simpl. now rewrite Hlen.
Qed.

Lemma model_lines_stops (before after : list pyval) (d : dict) :
  Forall (fun v => has_model v = true) before ->
  Dict.lookup "model" d = None ->
  Server.model_lines (before ++ PDict d :: after) = Raise (KeyError "'model'").
Proof.
  intros Hbefore Hd. induction Hbefore as [| v before Hv _ IH].
  - cbn [List.app Server.model_lines]. unfold Server.model_line. now rewrite Hd.
  - cbn [List.app Server.model_lines].
    destruct v as [| | | | | | e]; try discriminate Hv.
    unfold has_model, Dict.mem in Hv. unfold Server.model_line.
    destruct (Dict.lookup "model" e) as [name |]; [| discriminate Hv].
    cbn [res_bind]. now rewrite IH.
Qed.

(** X23: the tool [list_models] prints a heading and one line for each
    entry when every entry is a mapping with a [model] key; an entry that
    is a mapping without that key makes it raise [KeyError], which its
    [except OdooError] does not catch. *)
Theorem X23_list_models_needs_the_model_key (settings : Config.Settings)
    (top r data : dict) (ms : list pyval) (be : backend) (log : list request) :
  (forall q, be q = Body (PDict top)) ->
  Dict.lookup "error" top = None ->
  Dict.lookup "result" top = Some (PDict r) ->
  Py.truthy (Dict.get "error" PNone r) = false ->
  Dict.lookup "data" r = Some (PDict data) ->
  Dict.lookup "models" data = Some (PList ms) ->
  ms <> [] ->
  (Forall (fun v => has_model v = true) ms ->
   exists lines,
     length lines = length ms
     /\ fst (Server.list_models settings be log)
        = Ret (PyString.join PyString.nl
                 (("# Available Models" ++ PyString.nl) :: lines)))
  /\ (forall before d after,
        ms = (before ++ PDict d :: after)%list ->
        Forall (fun v => has_model v = true) before ->
        Dict.lookup "model" d = None ->
        fst (Server.list_models settings be log) = Raise (KeyError "'model'")).
Proof.
  intros Hbe Herr Hres Hflag Hdata Hmodels Hne.
  assert (Hrun : fst (Server.list_models settings be log)
                 = match res_bind (Server.model_lines ms)
                           (fun lines =>
                              Ret (PyString.join PyString.nl
                                     (("# Available Models" ++ PyString.nl) :: lines)))
                   with
                   | Raise (OdooError msg) => Ret ("Error listing models: " ++ msg)
                   | other => other
                   end).
  { unfold Server.list_models.
    erewrite except_OdooError_run.
    2:{ unfold OdooClient.list_models.
        rewrite (checked_run _ _ _ _ _ be log top r Hbe Herr Hres Hflag).
        now rewrite (data_get_present r data _ _ _ Hdata Hmodels). }
    destruct ms; [now contradiction Hne | reflexivity]. }
  split.
  - intros Hall. destruct (model_lines_of_models ms Hall) as (lines & Hlines & Hlen).
    exists lines. split; [exact Hlen |]. rewrite Hrun, Hlines. reflexivity.
  - intros before d after -> Hbefore Hd.
    rewrite Hrun, (model_lines_stops before after d Hbefore Hd). reflexivity.
Qed.

(** X23 at a list whose only entry has a name but no [model]. *)
Lemma X23_list_models_needs_the_model_key_witness :
  let ms := [PDict [("name", PStr "Contact"); ("can_read", PBool true)]] in
  let data := [("models", PList ms)] in
  fst (Server.list_models Config.defaults
         (fun _ => Body (PDict [("result", PDict [("data", PDict data)])])) [])
  = Raise (KeyError "'model'").
Proof.
  intros ms data.
  exact (proj2 (X23_list_models_needs_the_model_key Config.defaults
                  [("result", PDict [("data", PDict data)])] [("data", PDict data)]
                  data ms (fun _ => Body (PDict [("result", PDict [("data", PDict data)])]))
                  [] (fun _ => eq_refl) eq_refl eq_refl eq_refl eq_refl eq_refl
                  ltac:(discriminate))
               [] [("name", PStr "Contact"); ("can_read", PBool true)] []
               eq_refl (Forall_nil _) eq_refl).
Defined.

Lemma net_bind_run {A B : Type} (m : Net A) (k : A -> Net B)
    (be : backend) (log log' : list request) (a : A) :
  m be log = (Ret a, log') -> net_bind m k be log = k a be log'.
Proof. intros H. unfold net_bind. now rewrite H. Qed.

(** X24: the tool [get_record] and the resource [resource_record] give the
    same rendering of a record that the backend returns non-empty; for a
    record that is missing they part: the tool says that it was not found,
    the resource renders the empty record under a heading of question
    marks. *)
Theorem X24_tool_and_resource_on_a_record (settings : Config.Settings)
    (top r : dict) (be : backend) (log : list request) (model : string) (id : Z) :
  (forall q, be q = Body (PDict top)) ->
  Dict.lookup "error" top = None ->
  Dict.lookup "result" top = Some (PDict r) ->
  Py.truthy (Dict.get "error" PNone r) = false ->
  (forall data record,
     Dict.lookup "data" r = Some (PDict data) ->
     Dict.lookup "record" data = Some record ->
     Py.truthy record = true ->
     fst (Server.get_record settings model id None be log)
     = Format.format_record model record
     /\ fst (Server.resource_record settings model (PyString.of_Z id) be log)
        = Format.format_record model record)
  /\ (lacks r "record" = true ->
      fst (Server.get_record settings model id None be log)
      = Ret ("Record " ++ PyString.of_Z id ++ " not found in " ++ model ++ ".")
      /\ fst (Server.resource_record settings model (PyString.of_Z id) be log)
         = Ret ("# " ++ model ++ ": ID ? (ID: ?)" ++ PyString.nl)).
Proof.
  intros Hbe Herr Hres Hflag.
  pose proof (parse_of_Z id) as Hparse.
  assert (Hresource : forall record,
             OdooClient.read (OdooClient.get_client settings) model id None be log
             = (Ret record,
                (log ++ [request_of (OdooClient.get_client settings) "read"
                           [("model", PStr model); ("record_id", PInt id);
                            ("fields", Py.of_opt_list None)]])%list) ->
             fst (Server.resource_record settings model (PyString.of_Z id) be log)
             = Format.format_record model record).
  { intros record Hread. unfold Server.resource_record.
    unfold net_bind at 1. unfold net_lift at 1. rewrite Hparse.
    now rewrite (net_bind_run _ _ be log _ record Hread). }
  split.
  - intros data record Hdata Hrecord Htruthy.
    assert (Hread : OdooClient.read (OdooClient.get_client settings) model id None
                      be log
                    = (Ret record,
                       (log ++ [request_of (OdooClient.get_client settings) "read"
                                  [("model", PStr model); ("record_id", PInt id);
                                   ("fields", Py.of_opt_list None)]])%list)).
    { unfold OdooClient.read.
      rewrite (checked_run _ _ _ _ _ be log top r Hbe Herr Hres Hflag).
      now rewrite (data_get_present r data _ _ _ Hdata Hrecord). }
    split; [| now apply Hresource].
    unfold Server.get_record. erewrite except_OdooError_run; [| exact Hread].
    rewrite Htruthy. cbn [negb].
    destruct (Format.format_record model record) as [text | e] eqn:E;
      [now rewrite ?E | ].
    unfold net_lift. cbn [fst]. rewrite ?E.
    destruct e; try reflexivity.
    exfalso. exact (format_record_no_OdooError model record msg E).
  - intros Hlacks.
    assert (Hread : OdooClient.read (OdooClient.get_client settings) model id None
                      be log
                    = (Ret (PDict []),
                       (log ++ [request_of (OdooClient.get_client settings) "read"
                                  [("model", PStr model); ("record_id", PInt id);
                                   ("fields", Py.of_opt_list None)]])%list)).
    { unfold OdooClient.read.
      rewrite (checked_run _ _ _ _ _ be log top r Hbe Herr Hres Hflag).
      now rewrite (data_get_missing r _ _ Hlacks). }
    split.
    + unfold Server.get_record. erewrite except_OdooError_run; [| exact Hread].
      reflexivity.
    + rewrite (Hresource (PDict []) Hread). reflexivity.
Qed.

(** X24 at a record that is missing. *)
Lemma X24_tool_and_resource_on_a_record_witness :
  lacks [] "record" = true
  /\ fst (Server.resource_record Config.defaults "res.partner" (PyString.of_Z 42)
            (fun _ => Body (PDict [("result", PDict [])])) [])
     = Ret ("# res.partner: ID ? (ID: ?)" ++ PyString.nl).
Proof.
  split; [reflexivity |].
  exact (proj2 (proj2 (X24_tool_and_resource_on_a_record Config.defaults
                         [("result", PDict [])] []
                         (fun _ => Body (PDict [("result", PDict [])])) []
                         "res.partner" 42 (fun _ => eq_refl) eq_refl eq_refl eq_refl)
                      eq_refl)).
Defined.
